(** * ClipForge FFmpeg handler ([docker/ffmpeg/handler.py])

    A shallow embedding of the RunPod job handler: the request and the
    response are Python dictionaries of JSON values, Python floats are
    IEEE binary64 numbers ([PrimFloat]), and the effects of the handler
    (the file system, the log written by [print], the calls to the HTTP
    client, to [ffprobe]/[ffmpeg] and to [shutil.rmtree]) are threaded
    through a state-and-exception monad.  The behaviour of everything
    outside the Python process is read from a [world] record. *)

From Stdlib Require Import ZArith Ascii Floats DecimalString Lia.
From stdpp Require Import gmap strings.

Set Warnings "-register-all".

(** ** Python values *)

(** A decoded JSON value; [JNull] is Python's [None]. *)
Inductive json :=
| JNull
| JBool (b : bool)
| JInt (z : Z)
| JFloat (f : float)
| JStr (s : string)
| JList (l : list json)
| JDict (d : gmap string json).

Abbreviation pydict := (gmap string json).

(** [d.get(key, dflt)] *)
Definition dict_get (d : pydict) (key : string) (dflt : json) : json :=
  default dflt (d !! key).

(** Truth value of an object, as tested by [not video_url]. *)
Definition truthy (v : json) : bool :=
  match v with
  | JNull => false
  | JBool b => b
  | JInt z => negb (z =? 0)%Z
  | JFloat f => negb (f =? 0)%float
  | JStr s => negb (String.eqb s "")
  | JList l => negb (Nat.eqb (length l) 0)
  | JDict d => negb (Nat.eqb (size d) 0)
  end.

Definition type_name (v : json) : string :=
  match v with
  | JNull => "NoneType"
  | JBool _ => "bool"
  | JInt _ => "int"
  | JFloat _ => "float"
  | JStr _ => "str"
  | JList _ => "list"
  | JDict _ => "dict"
  end.

(** [v == s] for a string literal [s]: only a string compares equal. *)
Definition eq_str (v : json) (s : string) : bool :=
  match v with
  | JStr s' => String.eqb s' s
  | _ => false
  end.

(** ** Exceptions *)

Inductive exn_class :=
| ValueError | TypeError | AttributeError | OverflowError | OSError
| TimeoutExpired | CalledProcessError | PlainException.

(** An exception object; [exn_msg] is what [str(e)] gives.  Every class
    above derives from [Exception]. *)
Record exn := Exn { exn_cls : exn_class; exn_msg : string }.

Definition is_timeout (e : exn) : bool :=
  match exn_cls e with TimeoutExpired => true | _ => false end.

(** ** Built-in functions of the Python runtime

    The parts of the interpreter and of its standard library that the
    handler calls and that are not code of this repository. *)
Class PyBuiltins := {
  (** [float(s)] on a string: [None] when it raises [ValueError] *)
  float_of_string : string -> option float;
  (** [repr(v)]; for a float this is also [str(v)] *)
  py_repr : json -> string;
  (** [base64.b64encode(data).decode('utf-8')] *)
  b64encode : list Byte.byte -> string
}.

(** [str(v)], also what an f-string interpolates. *)
Definition py_str `{PyBuiltins} (v : json) : string :=
  match v with
  | JStr s => s
  | _ => py_repr v
  end.

(** [float(n)] on an integer, rounded to nearest-even. *)
Definition float_of_Z (z : Z) : float :=
  SF2Prim (binary_normalize prec emax z 0 false).

(** [float(v)] *)
Definition py_float `{PyBuiltins} (v : json) : exn + float :=
  match v with
  | JFloat f => inr f
  | JInt z =>
      let f := float_of_Z z in
      if is_infinity f
      then inl (Exn OverflowError "int too large to convert to float")
      else inr f
  | JBool b => inr (if b then 1%float else 0%float)
  | JStr s =>
      match float_of_string s with
      | Some f => inr f
      | None => inl (Exn ValueError
                  ("could not convert string to float: " +:+ py_repr (JStr s)))
      end
  | _ => inl (Exn TypeError
            ("float() argument must be a string or a real number, not '"
               +:+ type_name v +:+ "'"))
  end.

(** ** Strings and paths *)

Definition is_space (c : ascii) : bool :=
  let n := nat_of_ascii c in
  orb (Nat.eqb n 32) (orb (andb (Nat.leb 9 n) (Nat.leb n 13))
                           (andb (Nat.leb 28 n) (Nat.leb n 31))).

Fixpoint lstrip (s : string) : string :=
  match s with
  | String c r => if is_space c then lstrip r else s
  | EmptyString => EmptyString
  end.

Fixpoint rstrip (s : string) : string :=
  match s with
  | String c r =>
      match rstrip r with
      | EmptyString => if is_space c then EmptyString else String c EmptyString
      | r' => String c r'
      end
  | EmptyString => EmptyString
  end.

(** [s.strip()], on the white space of ASCII *)
Definition strip (s : string) : string := rstrip (lstrip s).

(** [s.split(sep)[0]] for a one-character separator *)
Fixpoint split_head (sep : ascii) (s : string) : string :=
  match s with
  | String c r => if Ascii.eqb c sep then EmptyString else String c (split_head sep r)
  | EmptyString => EmptyString
  end.

Fixpoint contains (c : ascii) (s : string) : bool :=
  match s with
  | String c' r => orb (Ascii.eqb c' c) (contains c r)
  | EmptyString => false
  end.

(** The part of a path after its last ["/"]. *)
Fixpoint basename (p : string) : string :=
  match p with
  | String _ r => if contains "/" p then basename r else p
  | EmptyString => EmptyString
  end.

(** The suffix of [s] that starts at its last ["."], if it has one. *)
Fixpoint last_dot (s : string) : option string :=
  match s with
  | String c r =>
      match last_dot r with
      | Some e => Some e
      | None => if Ascii.eqb c "." then Some s else None
      end
  | EmptyString => None
  end.

Fixpoint all_dots (n : nat) (s : string) : bool :=
  match n, s with
  | S n', String c r => andb (Ascii.eqb c ".") (all_dots n' r)
  | _, _ => true
  end.

(** [os.path.splitext(p)[1]]: the extension starts at the last dot of
    the file name, unless only dots precede it. *)
Definition splitext_ext (p : string) : string :=
  let b := basename p in
  match last_dot b with
  | Some e =>
      if all_dots (String.length b - String.length e) b then "" else e
  | None => ""
  end.

Definition ends_with_slash (s : string) : bool :=
  match String.get (String.length s - 1) s with
  | Some c => Ascii.eqb c "/"
  | None => false
  end.

(** [os.path.join(a, b)] *)
Definition path_join (a b : string) : string :=
  match b with
  | String "/" _ => b
  | _ => if orb (String.eqb a "") (ends_with_slash a) then a +:+ b
         else a +:+ "/" +:+ b
  end.

(** [sep.join(l)] *)
Fixpoint str_join (sep : string) (l : list string) : string :=
  match l with
  | [] => ""
  | [x] => x
  | x :: r => x +:+ sep +:+ str_join sep r
  end.

(** ** The file system *)

Inductive node :=
| Dir
| File (content : list Byte.byte).

Abbreviation filesystem := (gmap string node).

(** [os.path.exists(p)] *)
Definition path_exists (fs : filesystem) (p : string) : bool :=
  bool_decide (is_Some (fs !! p)).

(** [p] is [dir] itself or lies below it. *)
Definition under (dir p : string) : bool :=
  orb (String.eqb p dir) (String.prefix (dir +:+ "/") p).

(** What a successful [shutil.rmtree(dir)] leaves. *)
Definition remove_tree (dir : string) (fs : filesystem) : filesystem :=
  filter (fun kv => under dir kv.1 = false) fs.

(** ** The log and the calls that leave the process *)

(** One constructor per [print] statement of the source, holding the
    values its f-string interpolates. *)
Inductive log_line :=
| LogDownloadFetch (url : string)                        (* line 19 *)
| LogDownloadProgress (downloaded total_size : Z)        (* line 36 *)
| LogDownloadComplete (downloaded : Z)                   (* line 38 *)
| LogInfoDuration (duration : float)                     (* line 56 *)
| LogWarnDuration (e : string)                           (* line 59 *)
| LogExtracting (start_time duration : float) (quality : json) (* line 78 *)
| LogCommand (cmd : string)                              (* line 107 *)
| LogStderr (stderr : string)                            (* line 119 *)
| LogClipDone (file_size : Z)                            (* line 130 *)
| LogThumbnailAt (time : float)                          (* line 145 *)
| LogThumbnailDone (file_size : Z)                       (* line 168 *)
| LogReceived (job_input : pydict)                       (* line 192 *)
| LogWorkdir (temp_dir : string)                         (* line 208 *)
| LogWarnClamp                                           (* line 258 *)
| LogJobDone                                             (* line 285 *)
| LogJobFailed (error_msg : string)                      (* line 290 *)
| LogCleaned                                             (* line 302 *)
| LogWarnCleanup (e : string).                           (* line 304 *)

Inductive effect :=
| Print (l : log_line)
| CallMkdtemp
| CallHttpGet (url : string) (timeout : Z)
| CallRun (cmd : list string) (timeout : option Z) (check : bool)
| CallRmtree (path : string).

(** ** The world outside the process *)

(** A response of [requests.get(url, stream=True)] that passed
    [raise_for_status] and whose [content-length] was read: the chunks
    [iter_content] yields, and the error that ends the stream early. *)
Record http_response := HttpResponse {
  total_size : Z;
  chunks : list (list Byte.byte);
  stream_error : option string
}.

(** A child process: it cannot be started, or it runs for [elapsed_ms]
    milliseconds and exits. *)
Inductive proc_behaviour :=
| SpawnFails (msg : string)
| Exits (elapsed_ms : Z) (returncode : Z) (stdout stderr : string).

Inductive rmtree_behaviour :=
| RmOk
| RmFails (msg : string) (remains : filesystem -> filesystem).

Record world := World {
  (** [tempfile.gettempdir()] *)
  w_tmp_root : string;
  (** [tempfile.mkdtemp()]: the error raised, or the random part of the
      name of the directory created *)
  w_mkdtemp : string + string;
  (** the outcome of the GET request, by URL: an error, or a response *)
  w_http_get : string -> string + http_response;
  (** [open(path, 'wb')], by path: the error raised when the file cannot
      be opened for writing (its directory is missing, the path is a
      directory, the name is too long, ...) *)
  w_open : string -> option string;
  (** [f.write(chunk)], by path and by the number of bytes written to
      the file so far: the error raised when the write fails (the disk
      is full, ...) *)
  w_write : string -> Z -> option string;
  (** the child process a command line starts *)
  w_spawn : list string -> proc_behaviour;
  (** what that process has done to the disk when [subprocess.run] is
      back (or has killed it) *)
  w_proc_effect : list string -> filesystem -> filesystem;
  (** [shutil.rmtree], by path *)
  w_rmtree : string -> rmtree_behaviour;
  (** [st_size] of a directory *)
  w_dir_size : Z
}.

(** ** State and exceptions *)

(** The disk, what has been printed and called so far, and the local
    variable [temp_dir] of [handler], which its [finally] block reads
    after an exception. *)
Record state := State {
  st_fs : filesystem;
  st_trace : list effect;
  st_temp_dir : option string
}.

Definition M (A : Type) : Type := state -> (exn + A) * state.

Definition ret {A} (a : A) : M A := fun st => (inr a, st).

Definition bind {A B} (m : M A) (k : A -> M B) : M B :=
  fun st =>
    match m st with
    | (inr a, st') => k a st'
    | (inl e, st') => (inl e, st')
    end.

Definition raise {A} (c : exn_class) (msg : string) : M A :=
  fun st => (inl (Exn c msg), st).

(** [try: body / except Exception as e: on_exn e] *)
Definition try_except {A} (body : M A) (on_exn : exn -> M A) : M A :=
  fun st =>
    match body st with
    | (inr a, st') => (inr a, st')
    | (inl e, st') => on_exn e st'
    end.

(** [try: body / finally: fin] *)
Definition try_finally {A} (body : M A) (fin : M unit) : M A :=
  fun st =>
    match body st with
    | (r, st') =>
        match fin st' with
        | (inr _, st'') => (r, st'')
        | (inl e, st'') => (inl e, st'')
        end
    end.

Definition lift {A} (r : exn + A) : M A := fun st => (r, st).

#[global] Instance M_ret : MRet M := @ret.
#[global] Instance M_bind : MBind M := fun A B k m => bind m k.

Definition emit (e : effect) : M unit :=
  fun st => (inr tt, State (st_fs st) (st_trace st ++ [e]) (st_temp_dir st)).

Definition print (l : log_line) : M unit := emit (Print l).

Definition get_fs : M filesystem := fun st => (inr (st_fs st), st).

Definition set_fs (fs : filesystem) : M unit :=
  fun st => (inr tt, State fs (st_trace st) (st_temp_dir st)).

Definition set_temp_dir (d : option string) : M unit :=
  fun st => (inr tt, State (st_fs st) (st_trace st) d).

Definition get_temp_dir : M (option string) :=
  fun st => (inr (st_temp_dir st), st).

(** [when c: m] *)
Definition when (c : bool) (m : M unit) : M unit := if c then m else ret tt.

(** ** Library calls *)

Section Handler.
Context `{PyBuiltins} (W : world).

(** [os.path.getsize(p)] *)
Definition getsize (p : string) : M Z :=
  fs ← get_fs;
  match fs !! p with
  | Some (File c) => ret (Z.of_nat (length c))
  | Some Dir => ret (w_dir_size W)
  | None => raise OSError ("[Errno 2] No such file or directory: " +:+ py_repr (JStr p))
  end.

(** [with open(p, 'rb') as f: f.read()] *)
Definition read_file (p : string) : M (list Byte.byte) :=
  fs ← get_fs;
  match fs !! p with
  | Some (File c) => ret c
  | Some Dir => raise OSError ("[Errno 21] Is a directory: " +:+ py_repr (JStr p))
  | None => raise OSError ("[Errno 2] No such file or directory: " +:+ py_repr (JStr p))
  end.

(** What a write of [chunk] at the end of the file [p] does to the
    disk. *)
Definition append_file (p : string) (chunk : list Byte.byte) : M unit :=
  fs ← get_fs;
  match fs !! p with
  | Some (File c) => set_fs (<[p := File (c ++ chunk)]> fs)
  | _ => set_fs (<[p := File chunk]> fs)
  end.

(** [open(p, 'wb')]: it raises, or the file is there and is empty. *)
Definition open_write (p : string) : M unit :=
  match w_open W p with
  | Some msg => raise OSError msg
  | None =>
      fs ← get_fs;
      set_fs (<[p := File []]> fs)
  end.

(** [f.write(chunk)] on the file opened at [p], [written] bytes in. *)
Definition write_file (p : string) (written : Z) (chunk : list Byte.byte)
  : M unit :=
  match w_write W p written with
  | Some msg => raise OSError msg
  | None => append_file p chunk
  end.

(** The directory [mkdtemp] makes: [prefix + name] under the temporary
    root, with the default prefix ["tmp"]. *)
Definition workdir (name : string) : string :=
  path_join (w_tmp_root W) ("tmp" +:+ name).

(** [tempfile.mkdtemp()] *)
Definition mkdtemp : M string :=
  emit CallMkdtemp;;
  match w_mkdtemp W with
  | inl msg => raise OSError msg
  | inr name =>
      let d := workdir name in
      fs ← get_fs;
      set_fs (<[d := Dir]> fs);;
      ret d
  end.

(** [shutil.rmtree(path)] *)
Definition rmtree (path : string) : M unit :=
  emit (CallRmtree path);;
  fs ← get_fs;
  match w_rmtree W path with
  | RmOk => set_fs (remove_tree path fs)
  | RmFails msg remains => set_fs (remains fs);; raise OSError msg
  end.

Record completed_process := Completed {
  returncode : Z;
  stdout : string;
  stderr : string
}.

Definition cmd_repr (cmd : list string) : string :=
  py_repr (JList (JStr <$> cmd)).

(** [subprocess.run(cmd, capture_output=True, text=True, timeout=...,
    check=...)]; [timeout] is in seconds. *)
Definition subprocess_run (cmd : list string) (timeout : option Z) (check : bool)
  : M completed_process :=
  emit (CallRun cmd timeout check);;
  match w_spawn W cmd with
  | SpawnFails msg => raise OSError msg
  | Exits elapsed rc out err =>
      fs ← get_fs;
      set_fs (w_proc_effect W cmd fs);;
      match timeout with
      | Some t =>
          if (t * 1000 <? elapsed)%Z
          then raise TimeoutExpired
                 ("Command '" +:+ cmd_repr cmd +:+ "' timed out after "
                    +:+ py_repr (JInt t) +:+ " seconds")
          else ret tt
      | None => ret tt
      end;;
      if andb check (negb (rc =? 0)%Z)
      then raise CalledProcessError
             ("Command '" +:+ cmd_repr cmd +:+ "' returned non-zero exit status "
                +:+ py_repr (JInt rc) +:+ ".")
      else ret (Completed rc out err)
  end.

(** [requests.get(url, stream=True, timeout=...)], [raise_for_status()]
    and the read of the [content-length] header *)
Definition http_get (url : string) (timeout : Z) : M http_response :=
  emit (CallHttpGet url timeout);;
  match w_http_get W url with
  | inl msg => raise OSError msg
  | inr r => ret r
  end.

(** ** The functions of [handler.py] *)

(** The loop of lines 29-36. *)
Fixpoint write_chunks (destination : string) (total : Z)
    (cs : list (list Byte.byte)) (downloaded : Z) : M Z :=
  match cs with
  | [] => ret downloaded
  | chunk :: rest =>
      match chunk with
      | [] => write_chunks destination total rest downloaded
      | _ =>
          write_file destination downloaded chunk;;
          let downloaded := (downloaded + Z.of_nat (length chunk))%Z in
          when (andb (0 <? total)%Z (downloaded mod (1024 * 1024) =? 0)%Z)
               (print (LogDownloadProgress downloaded total));;
          write_chunks destination total rest downloaded
      end
  end.

Definition download_file (url destination : string) : M string :=
  print (LogDownloadFetch url);;
  try_except
    (response ← http_get url 300;
     open_write destination;;
     downloaded ← write_chunks destination (total_size response) (chunks response) 0%Z;
     match stream_error response with
     | Some msg => raise OSError msg
     | None => ret tt
     end;;
     print (LogDownloadComplete downloaded);;
     ret destination)
    (fun e => raise PlainException ("Download failed: " +:+ exn_msg e)).

Definition ffprobe_cmd (input_path : string) : list string :=
  ["ffprobe"; "-v"; "error"; "-show_entries"; "format=duration";
   "-of"; "default=noprint_wrappers=1:nokey=1"; input_path].

Definition get_video_duration (input_path : string) : M float :=
  try_except
    (let cmd := ffprobe_cmd input_path in
     result ← subprocess_run cmd None true;
     duration ← lift (py_float (JStr (strip (stdout result))));
     print (LogInfoDuration duration);;
     ret duration)
    (fun e =>
       print (LogWarnDuration (exn_msg e));;
       ret 0%float).

(** One entry of [quality_presets]. *)
Record preset := Preset { crf : string; preset_speed : string }.

Definition quality_presets : gmap string preset :=
  list_to_map
    [("high", Preset "23" "fast");
     ("medium", Preset "25" "faster");
     ("low", Preset "28" "veryfast")].

Definition medium_preset : preset := Preset "25" "faster".

(** [quality_presets.get(quality, quality_presets['medium'])]; a list
    or a dictionary cannot be hashed. *)
Definition lookup_preset (quality : json) : exn + preset :=
  match quality with
  | JStr q => inr (default medium_preset (quality_presets !! q))
  | JList _ | JDict _ =>
      inl (Exn TypeError ("unhashable type: '" +:+ type_name quality +:+ "'"))
  | _ => inr medium_preset
  end.

Definition ffmpeg_clip_cmd (input_path output_path : string)
    (start_time duration : float) (settings : preset) : list string :=
  ["ffmpeg";
   "-ss"; py_str (JFloat start_time);
   "-i"; input_path;
   "-t"; py_str (JFloat duration);
   "-c:v"; "libx264";
   "-preset"; preset_speed settings;
   "-crf"; crf settings;
   "-c:a"; "aac";
   "-b:a"; "128k";
   "-ar"; "44100";
   "-movflags"; "+faststart";
   "-pix_fmt"; "yuv420p";
   "-y";
   output_path].

(** Lines 110-136: the [try] statement of [extract_clip]. *)
Definition run_clip_command (cmd : list string) (output_path : string) : M string :=
  try_except
    (result ← subprocess_run cmd (Some 600%Z) false;
     (if negb (returncode result =? 0)%Z
      then print (LogStderr (stderr result));;
           raise PlainException ("FFmpeg processing failed: " +:+ stderr result)
      else ret tt);;
     fs ← get_fs;
     (if negb (path_exists fs output_path)
      then raise PlainException "Output file was not created"
      else ret tt);;
     file_size ← getsize output_path;
     (if (file_size =? 0)%Z
      then raise PlainException "Output file is empty"
      else ret tt);;
     print (LogClipDone file_size);;
     ret output_path)
    (fun e =>
       if is_timeout e
       then raise PlainException "FFmpeg processing timed out after 10 minutes"
       else raise PlainException ("FFmpeg error: " +:+ exn_msg e)).

Definition extract_clip (input_path output_path : string)
    (start_time duration : float) (quality : json) : M string :=
  print (LogExtracting start_time duration quality);;
  settings ← lift (lookup_preset quality);
  let cmd := ffmpeg_clip_cmd input_path output_path start_time duration settings in
  print (LogCommand (str_join " " cmd));;
  run_clip_command cmd output_path.

Definition ffmpeg_thumbnail_cmd (input_path output_path : string) (time : float)
  : list string :=
  ["ffmpeg";
   "-ss"; py_str (JFloat time);
   "-i"; input_path;
   "-vframes"; "1";
   "-q:v"; "2";
   "-vf"; "scale=-2:720";
   "-y";
   output_path].

(** Lines 158-172: the [try] statement of [generate_thumbnail]. *)
Definition run_thumbnail_command (cmd : list string) (output_path : string)
  : M string :=
  try_except
    (result ← subprocess_run cmd (Some 30%Z) false;
     (if negb (returncode result =? 0)%Z
      then raise PlainException ("Thumbnail generation failed: " +:+ stderr result)
      else ret tt);;
     fs ← get_fs;
     (if negb (path_exists fs output_path)
      then raise PlainException "Thumbnail file was not created"
      else ret tt);;
     file_size ← getsize output_path;
     print (LogThumbnailDone file_size);;
     ret output_path)
    (fun e => raise PlainException ("Thumbnail error: " +:+ exn_msg e)).

Definition generate_thumbnail (input_path output_path : string) (time : float)
  : M string :=
  print (LogThumbnailAt time);;
  let cmd := ffmpeg_thumbnail_cmd input_path output_path time in
  run_thumbnail_command cmd output_path.

(** The request a job carries: [event['input']], when the key is there. *)
Record event := Event { input : option pydict }.

(** [event.get('input', {})] *)
Definition event_input (ev : event) : pydict := default ∅ (input ev).

(** Lines 223-243: the branch [operation == 'generate_thumbnail']. *)
Definition thumbnail_job (job_input : pydict) (temp_dir input_path : string)
  : M pydict :=
  time ← lift (py_float (dict_get job_input "time" (JInt 0)));
  let output_path := path_join temp_dir "thumbnail.jpg" in
  generate_thumbnail input_path output_path time;;
  output_data ← read_file output_path;
  let output_base64 := b64encode output_data in
  ret (list_to_map
         [("success", JBool true);
          ("operation", JStr "generate_thumbnail");
          ("thumbnail_data", JStr output_base64);
          ("file_size", JInt (Z.of_nat (length output_data)));
          ("format", JStr "jpg");
          ("time", JFloat time)]).

(** Lines 246-283: the [else] branch, clip extraction. *)
Definition clip_job (job_input : pydict) (temp_dir input_path : string)
    (video_duration : float) : M pydict :=
  start_time ← lift (py_float (dict_get job_input "start_time" (JInt 0)));
  duration ← lift (py_float (dict_get job_input "duration" (JInt 30)));
  let quality := dict_get job_input "quality" (JStr "medium") in
  let output_format := dict_get job_input "output_format" (JStr "mp4") in
  (if (start_time <? 0)%float
   then raise ValueError "start_time must be >= 0"
   else ret tt);;
  (if (duration <=? 0)%float
   then raise ValueError "duration must be > 0"
   else ret tt);;
  duration ←
    (if andb (0 <? video_duration)%float
             (video_duration <? start_time + duration)%float
     then print LogWarnClamp;;
          ret (video_duration - start_time)%float
     else ret duration);
  let output_path := path_join temp_dir ("output." +:+ py_str output_format) in
  extract_clip input_path output_path start_time duration quality;;
  output_data ← read_file output_path;
  let output_base64 := b64encode output_data in
  ret (list_to_map
         [("success", JBool true);
          ("operation", JStr "extract_clip");
          ("clip_data", JStr output_base64);
          ("file_size", JInt (Z.of_nat (length output_data)));
          ("format", output_format);
          ("start_time", JFloat start_time);
          ("duration", JFloat duration);
          ("quality", quality);
          ("video_duration", JFloat video_duration)]).

(** [video_url.split('?')]: only a string has the method. *)
Definition url_string (video_url : json) : M string :=
  match video_url with
  | JStr s => ret s
  | _ => raise AttributeError
           ("'" +:+ type_name video_url +:+ "' object has no attribute 'split'")
  end.

(** Lines 197-220: the required field, the workspace, the download and
    the probe.  It yields [temp_dir], [input_path] and [video_duration]. *)
Definition prepare (ev : event) : M (string * string * float) :=
  let job_input := event_input ev in
  let video_url := dict_get job_input "video_url" JNull in
  (if negb (truthy video_url)
   then raise ValueError "video_url is required"
   else ret tt);;
  temp_dir ← mkdtemp;
  set_temp_dir (Some temp_dir);;
  print (LogWorkdir temp_dir);;
  url ← url_string video_url;
  let url_path := split_head "?" url in
  let input_ext :=
    match splitext_ext url_path with
    | EmptyString => ".mp4"
    | e => e
    end in
  let input_path := path_join temp_dir ("input" +:+ input_ext) in
  download_file url input_path;;
  video_duration ← get_video_duration input_path;
  ret (temp_dir, input_path, video_duration).

(** Lines 200 and 222-283: the choice of the operation. *)
Definition dispatch (ev : event) (temp_dir input_path : string)
    (video_duration : float) : M pydict :=
  let job_input := event_input ev in
  let operation := dict_get job_input "operation" (JStr "extract_clip") in
  if eq_str operation "generate_thumbnail"
  then thumbnail_job job_input temp_dir input_path
  else clip_job job_input temp_dir input_path video_duration.

(** Lines 197-286: the body of the [try]. *)
Definition handler_try (ev : event) : M pydict :=
  p ← prepare ev;
  let '(temp_dir, input_path, video_duration) := p in
  result ← dispatch ev temp_dir input_path video_duration;
  print LogJobDone;;
  ret result.

(** Lines 288-295: the response of the [except] block. *)
Definition failure_response (ev : event) (error_msg : string) : pydict :=
  list_to_map
    [("success", JBool false);
     ("error", JStr error_msg);
     ("operation", dict_get (event_input ev) "operation" (JStr "unknown"))].

(** Lines 297-304: the [finally] block. *)
Definition cleanup : M unit :=
  temp_dir ← get_temp_dir;
  fs ← get_fs;
  match temp_dir with
  | Some d =>
      if andb (negb (String.eqb d "")) (path_exists fs d)
      then try_except
             (rmtree d;;
              print LogCleaned)
             (fun e => print (LogWarnCleanup (exn_msg e)))
      else ret tt
  | None => ret tt
  end.

(** Lines 192-194: what runs before the [try]. *)
Definition entry (ev : event) : M unit :=
  print (LogReceived (event_input ev));;
  set_temp_dir None.

(** Lines 288-295: the [except] block. *)
Definition on_failure (ev : event) (e : exn) : M pydict :=
  let error_msg := exn_msg e in
  print (LogJobFailed error_msg);;
  ret (failure_response ev error_msg).

Definition handler (ev : event) : M pydict :=
  entry ev;;
  try_finally
    (try_except (handler_try ev) (on_failure ev))
    cleanup.

End Handler.

Arguments handler {_} W ev.
Arguments handler_try {_} W ev.
Arguments prepare {_} W ev.
Arguments dispatch {_} W ev temp_dir input_path video_duration.
Arguments clip_job {_} W job_input temp_dir input_path video_duration.
Arguments thumbnail_job {_} W job_input temp_dir input_path.
Arguments extract_clip {_} W input_path output_path start_time duration quality.
Arguments generate_thumbnail {_} W input_path output_path time.
Arguments get_video_duration {_} W input_path.
Arguments subprocess_run {_} W cmd timeout check.
Arguments run_clip_command {_} W cmd output_path.
Arguments run_thumbnail_command {_} W cmd output_path.
Arguments ffmpeg_clip_cmd {_} input_path output_path start_time duration settings.
Arguments ffmpeg_thumbnail_cmd {_} input_path output_path time.

(** ** Vocabulary of the specification *)

(** The state [st] after one more effect. *)
Definition pushed (e : effect) (st : state) : state :=
  State (st_fs st) (st_trace st ++ [e]) (st_temp_dir st).

(** The state on entry to the [try] block (after lines 192-194). *)
Definition entered (ev : event) (st : state) : state :=
  State (st_fs st) (st_trace st ++ [Print (LogReceived (event_input ev))]) None.

(** [st'] comes after [st]: the trace has grown by effects that all
    satisfy [P], and [temp_dir] is what it was or has been set to the
    directory [mkdtemp] made. *)
Record extends (W : world) (P : effect -> Prop) (st st' : state) : Prop := {
  ext_trace : exists evs, st_trace st' = st_trace st ++ evs /\ Forall P evs;
  ext_temp : st_temp_dir st' = st_temp_dir st \/
             exists name, w_mkdtemp W = inr name /\
                          st_temp_dir st' = Some (workdir W name)
}.

(** Every run of [m] extends the state it starts from. *)
Definition sat {A} (W : world) (P : effect -> Prop) (m : M A) : Prop :=
  forall st r st', m st = (r, st') -> extends W P st st'.

(** The test of line 257: the clip would end after the video does. *)
Definition clamps (video_duration start_time duration : float) : bool :=
  andb (0 <? video_duration)%float
       (video_duration <? start_time + duration)%float.

(** [x] is a number with sign bit [s]. *)
Definition signed (s : bool) (x : spec_float) : Prop :=
  match x with
  | S754_zero s' | S754_infinity s' | S754_finite s' _ _ => s' = s
  | S754_nan => False
  end.

(** No condition on the effects. *)
Definition anything (e : effect) : Prop := True.

(** The only child process started is the duration probe. *)
Definition probe_only (e : effect) : Prop :=
  match e with
  | CallRun cmd _ _ => exists input_path, cmd = ffprobe_cmd input_path
  | _ => True
  end.

(** The only child processes started are the duration probe and the
    clip transcoder. *)
Definition clip_pipeline `{PyBuiltins} (e : effect) : Prop :=
  match e with
  | CallRun cmd _ _ =>
      (exists input_path, cmd = ffprobe_cmd input_path) \/
      (exists i o s d settings, cmd = ffmpeg_clip_cmd i o s d settings)
  | _ => True
  end.

(** The request names no operation, or one that is not the thumbnail
    operation. *)
Definition not_thumbnail (ev : event) : Prop :=
  event_input ev !! "operation" = None \/
  exists s, event_input ev !! "operation" = Some (JStr s) /\
            s <> "generate_thumbnail".

(** The probe fails: the tool cannot be started, exits with a non-zero
    code, or prints what [float] cannot parse. *)
Definition probe_fails `{PyBuiltins} (W : world) (input_path : string) : Prop :=
  match w_spawn W (ffprobe_cmd input_path) with
  | SpawnFails _ => True
  | Exits _ rc out _ => rc <> 0%Z \/ float_of_string (strip out) = None
  end.

(** The times were given as numbers and one of them is out of range. *)
Definition bad_times `{PyBuiltins} (job : pydict) : Prop :=
  (exists s, py_float (dict_get job "start_time" (JInt 0)) = inr s /\
             (s <? 0)%float = true) \/
  (exists d, py_float (dict_get job "duration" (JInt 30)) = inr d /\
             (d <=? 0)%float = true).


(** The request asks for a thumbnail. *)
Definition is_thumbnail (ev : event) : Prop :=
  event_input ev !! "operation" = Some (JStr "generate_thumbnail").

(** The first write of the loop of lines 29-36 that fails, if one
    does: empty chunks are not written. *)
Fixpoint write_error (W : world) (dest : string)
    (cs : list (list Byte.byte)) (written : Z) : option string :=
  match cs with
  | [] => None
  | chunk :: rest =>
      match chunk with
      | [] => write_error W dest rest written
      | _ =>
          match w_write W dest written with
          | Some msg => Some msg
          | None =>
              write_error W dest rest (written + Z.of_nat (length chunk))%Z
          end
      end
  end.

(** How the download of [url] to [dest] fails, if it does: the request
    is refused, the file cannot be opened, a write fails, or the stream
    of chunks breaks. *)
Definition download_error (W : world) (url dest : string) : option string :=
  match w_http_get W url with
  | inl msg => Some msg
  | inr resp =>
      match w_open W dest with
      | Some msg => Some msg
      | None =>
          match write_error W dest (chunks resp) 0 with
          | Some msg => Some msg
          | None => stream_error resp
          end
      end
  end.

(** No child process is started. *)
Definition no_process (e : effect) : Prop :=
  match e with
  | CallRun _ _ _ => False
  | _ => True
  end.

(** Nothing is fetched and no child process is started. *)
Definition local_only (e : effect) : Prop :=
  match e with
  | CallHttpGet _ _ | CallRun _ _ _ => False
  | _ => True
  end.

(** A progress line is printed for a known total size, at a whole
    number of mebibytes. *)
Definition progress_ok (e : effect) : Prop :=
  match e with
  | Print (LogDownloadProgress n t) =>
      (0 < t)%Z /\ (n mod (1024 * 1024) = 0)%Z
  | _ => True
  end.

(** The only child processes started are the duration probe and the
    thumbnail command. *)
Definition thumbnail_pipeline `{PyBuiltins} (e : effect) : Prop :=
  match e with
  | CallRun cmd _ _ =>
      (exists input_path, cmd = ffprobe_cmd input_path) \/
      (exists i o t, cmd = ffmpeg_thumbnail_cmd i o t)
  | _ => True
  end.

(** The calls the handler makes at all: the GET request with its 300
    second bound, the probe without a bound, the clip command with 600
    seconds, the thumbnail command with 30, and the removal of the
    directory [mkdtemp] made. *)
Definition disciplined `{PyBuiltins} (W : world) (e : effect) : Prop :=
  match e with
  | CallHttpGet _ t => t = 300%Z
  | CallRun cmd t c =>
      (exists p, cmd = ffprobe_cmd p /\ t = None /\ c = true) \/
      (exists i o s d settings,
          cmd = ffmpeg_clip_cmd i o s d settings /\ t = Some 600%Z /\ c = false) \/
      (exists i o time,
          cmd = ffmpeg_thumbnail_cmd i o time /\ t = Some 30%Z /\ c = false)
  | CallRmtree p => exists name, w_mkdtemp W = inr name /\ p = workdir W name
  | _ => True
  end.

(** The extension [prepare] gives the input file (lines 211-212). *)
Definition input_ext (url : string) : string :=
  match splitext_ext (split_head "?" url) with
  | EmptyString => ".mp4"
  | e => e
  end.

(** The exception [float] raises on the times of a clip request, if it
    does: on [start_time] first (line 247), then on [duration]. *)
Definition conversion_error `{PyBuiltins} (job : pydict) : option exn :=
  match py_float (dict_get job "start_time" (JInt 0)) with
  | inl e => Some e
  | inr _ =>
      match py_float (dict_get job "duration" (JInt 30)) with
      | inl e => Some e
      | inr _ => None
      end
  end.


(** The request [ev] with its [operation] field set to [op]. *)
Definition with_operation (ev : event) (op : json) : event :=
  Event (Some (<["operation" := op]> (event_input ev))).

(** The state after lines 207-208, in the workspace [name]. *)
Definition in_workspace (W : world) (name : string) (st : state) : state :=
  State (<[workdir W name := Dir]> (st_fs st))
        (st_trace st ++ [CallMkdtemp; Print (LogWorkdir (workdir W name))])
        (Some (workdir W name)).

(** The path the video is downloaded to (line 214). *)
Definition input_path_of (W : world) (name url : string) : string :=
  path_join (workdir W name) ("input" +:+ input_ext url).

(** ** A runtime and worlds to run the handler on *)

Module Sample.

Definition digit (c : ascii) : option Z :=
  let n := Z.of_nat (nat_of_ascii c) in
  if andb (48 <=? n)%Z (n <=? 57)%Z then Some (n - 48)%Z else None.

(** Digits with at most one dot: the number without the dot, and how
    many digits follow the dot. *)
Fixpoint digits (s : string) (acc : Z) (frac : option nat) : option (Z * nat) :=
  match s with
  | EmptyString => Some (acc, default 0 frac)
  | String c r =>
      if Ascii.eqb c "."
      then match frac with
           | None => digits r acc (Some 0)
           | Some _ => None
           end
      else match digit c with
           | Some d => digits r (10 * acc + d)%Z (S <$> frac)
           | None => None
           end
  end.

(** [float(s)] on plain decimal literals whose digits and power of ten
    are exact in binary64, where one division rounds correctly. *)
Definition decimal_float (s : string) : option float :=
  let '(neg, body) :=
    match strip s with
    | String "-" r => (true, r)
    | r => (false, r)
    end in
  match body with
  | EmptyString | String "." EmptyString => None
  | _ =>
      match digits body 0 None with
      | Some (n, k) =>
          if andb (n <? 2 ^ 53)%Z (Nat.leb k 22)
          then let x := (float_of_Z n / float_of_Z (10 ^ Z.of_nat k))%float in
               Some (if neg then (- x)%float else x)
          else None
      | None => None
      end
  end.

Definition decimal (z : Z) : string := NilZero.string_of_int (Z.to_int z).

(** A stand-in for [repr]: floats are shown as mantissa and binary
    exponent, strings without escapes, dictionaries without content. *)
Fixpoint repr (v : json) : string :=
  match v with
  | JNull => "None"
  | JBool b => if b then "True" else "False"
  | JInt z => decimal z
  | JFloat f =>
      match Prim2SF f with
      | S754_zero s => if s then "-0.0" else "0.0"
      | S754_infinity s => if s then "-inf" else "inf"
      | S754_nan => "nan"
      | S754_finite s m e =>
          (if s then "-" else "") +:+ decimal (Z.pos m) +:+ "*2**" +:+ decimal e
      end
  | JStr s => "'" +:+ s +:+ "'"
  | JList l => "[" +:+ str_join ", " (map repr l) +:+ "]"
  | JDict _ => "{...}"
  end.

Definition b64_alphabet : string :=
  "ABCDEFGHIJKLMNOPQRSTUVWXYZabcdefghijklmnopqrstuvwxyz0123456789+/".

Definition b64_char (n : N) : ascii :=
  default "="%char (String.get (N.to_nat (n mod 64)) b64_alphabet).

Fixpoint b64_groups (l : list N) : string :=
  match l with
  | a :: b :: c :: r =>
      let n := (a * 65536 + b * 256 + c)%N in
      String (b64_char (n / 262144)) (String (b64_char (n / 4096))
        (String (b64_char (n / 64)) (String (b64_char n) (b64_groups r))))
  | [a; b] =>
      let n := (a * 65536 + b * 256)%N in
      String (b64_char (n / 262144)) (String (b64_char (n / 4096))
        (String (b64_char (n / 64)) "="))
  | [a] =>
      let n := (a * 65536)%N in
      String (b64_char (n / 262144)) (String (b64_char (n / 4096)) "==")
  | [] => ""
  end.

Definition base64 (data : list Byte.byte) : string :=
  b64_groups (Byte.to_N <$> data).

#[export] Instance runtime : PyBuiltins := {
  float_of_string := decimal_float;
  py_repr := repr;
  b64encode := base64
}.

Definition newline : string := String (ascii_of_nat 10) "".

Definition last_arg (cmd : list string) : string := List.last cmd "".

(** Two chunks are downloaded, [ffprobe] prints [stdout], and [ffmpeg]
    exits with [rc] after [elapsed] milliseconds, having left [out] at
    its output path. *)
Definition world_of (probe : proc_behaviour) (elapsed rc : Z)
    (out : option (list Byte.byte)) (rm : rmtree_behaviour) : world :=
  World "/tmp"
    (inr "k3x9w2ab")
    (fun _ => inr (HttpResponse 4 [[Byte.x00; Byte.x01]; []; [Byte.x02; Byte.x03]] None))
    (fun _ => None)
    (fun _ _ => None)
    (fun cmd =>
       match cmd with
       | "ffprobe" :: _ => probe
       | _ => Exits elapsed rc "" "ffmpeg diagnostics"
       end)
    (fun cmd fs =>
       match cmd, out with
       | "ffmpeg" :: _, Some c => <[last_arg cmd := File c]> fs
       | _, _ => fs
       end)
    (fun _ => rm)
    4096.

Definition probe_60 : proc_behaviour :=
  Exits 120 0 ("60.000000" +:+ newline) "".

Definition clip_bytes : list Byte.byte := [Byte.x66; Byte.x74; Byte.x79; Byte.x70].

(** A 60 second video, and a transcoder that works. *)
Definition good_world : world :=
  world_of probe_60 4000 0 (Some clip_bytes) RmOk.

Definition request (fields : list (string * json)) : event :=
  Event (Some (list_to_map fields)).

Definition start_state : state := State ∅ [] None.

Definition video_url : string := "https://cdn.example/v.mp4?sig=1".

(** The scenario of the specification: 30 seconds from second 50 of a
    60 second video. *)
Definition clip_50_30 : event :=
  request [("operation", JStr "extract_clip"); ("video_url", JStr video_url);
           ("start_time", JInt 50); ("duration", JInt 30);
           ("quality", JStr "high")].

(** A clip that starts after the end of the video. *)
Definition clip_70_30 : event :=
  request [("video_url", JStr video_url);
           ("start_time", JInt 70); ("duration", JInt 30)].

(** The second scenario of the specification: an empty URL. *)
Definition empty_url : event := request [("video_url", JStr "")].

(** A clip that starts before the video does. *)
Definition clip_negative : event :=
  request [("video_url", JStr video_url); ("start_time", JInt (-1))].

(** An operation the handler does not know. *)
Definition transcode_request : event :=
  request [("operation", JStr "transcode"); ("video_url", JStr video_url);
           ("start_time", JInt 5); ("duration", JInt 10)].

Definition thumbnail_request : event :=
  request [("operation", JStr "generate_thumbnail");
           ("video_url", JStr video_url); ("time", JInt 15)].



(** The transcoder exits with code 0 and leaves an empty file. *)
Definition empty_output_world : world :=
  world_of probe_60 900 0 (Some []) RmOk.

(** The transcoder needs eleven minutes. *)
Definition slow_world : world :=
  world_of probe_60 660000 0 (Some clip_bytes) RmOk.

(** [ffprobe] is not installed. *)
Definition no_probe_world : world :=
  world_of (SpawnFails "[Errno 2] No such file or directory: 'ffprobe'")
    4000 0 (Some clip_bytes) RmOk.

(** The server refuses the request. *)
Definition offline_world : world :=
  World "/tmp" (inr "k3x9w2ab")
    (fun _ => inl "503 Server Error: Service Unavailable")
    (fun _ => None) (fun _ _ => None)
    (w_spawn good_world) (w_proc_effect good_world) (fun _ => RmOk) 4096.

(** The stream breaks after the first chunk. *)
Definition broken_stream_world : world :=
  World "/tmp" (inr "k3x9w2ab")
    (fun _ => inr (HttpResponse 4 [[Byte.x00; Byte.x01]]
                     (Some "Connection broken: IncompleteRead")))
    (fun _ => None) (fun _ _ => None)
    (w_spawn good_world) (w_proc_effect good_world) (fun _ => RmOk) 4096.

(** The input file cannot be opened for writing. *)
Definition read_only_world : world :=
  World "/tmp" (inr "k3x9w2ab") (w_http_get good_world)
    (fun p => Some ("[Errno 30] Read-only file system: '" +:+ p +:+ "'"))
    (fun _ _ => None)
    (w_spawn good_world) (w_proc_effect good_world) (fun _ => RmOk) 4096.

(** The disk is full after the first two bytes. *)
Definition full_disk_world : world :=
  World "/tmp" (inr "k3x9w2ab") (w_http_get good_world)
    (fun _ => None)
    (fun _ n => if (2 <=? n)%Z then Some "[Errno 28] No space left on device"
                else None)
    (w_spawn good_world) (w_proc_effect good_world) (fun _ => RmOk) 4096.

(** No temporary directory can be made. *)
Definition no_tmp_world : world :=
  World "/tmp" (inl "[Errno 28] No space left on device")
    (w_http_get good_world) (fun _ => None) (fun _ _ => None)
    (w_spawn good_world) (w_proc_effect good_world)
    (fun _ => RmOk) 4096.

(** [ffmpeg] is not installed. *)
Definition no_ffmpeg_world : world :=
  World "/tmp" (inr "k3x9w2ab") (w_http_get good_world)
    (fun _ => None) (fun _ _ => None)
    (fun cmd =>
       match cmd with
       | "ffprobe" :: _ => probe_60
       | _ => SpawnFails "[Errno 2] No such file or directory: 'ffmpeg'"
       end)
    (fun _ fs => fs) (fun _ => RmOk) 4096.

(** The thumbnail command needs 45 seconds. *)
Definition slow_thumbnail_world : world :=
  world_of probe_60 45000 0 (Some clip_bytes) RmOk.

(** A URL that is a number. *)
Definition numeric_url : event := request [("video_url", JInt 5)].

(** A start time that is not a number. *)
Definition clip_null_start : event :=
  request [("video_url", JStr video_url); ("start_time", JNull)].

(** A start time below zero and a duration that is not a number. *)
Definition clip_negative_null : event :=
  request [("video_url", JStr video_url);
           ("start_time", JInt (-1)); ("duration", JNull)].


(** A clip inside the video. *)
Definition clip_10_20 : event :=
  request [("video_url", JStr video_url);
           ("start_time", JInt 10); ("duration", JInt 20)].

(** A start time that is not a number for the comparison either. *)
Definition clip_nan : event :=
  request [("video_url", JStr video_url);
           ("start_time", JFloat nan); ("duration", JInt 20)].

(** A thumbnail before the start of the video. *)
Definition thumbnail_negative : event :=
  request [("operation", JStr "generate_thumbnail");
           ("video_url", JStr video_url); ("time", JInt (-3))].

(** The response to [clip_50_30] in [good_world]. *)
Definition clip_50_30_response : pydict :=
  list_to_map
    [("success", JBool true); ("operation", JStr "extract_clip");
     ("clip_data", JStr "ZnR5cA=="); ("file_size", JInt 4);
     ("format", JStr "mp4"); ("start_time", JFloat 50);
     ("duration", JFloat 10); ("quality", JStr "high");
     ("video_duration", JFloat 60)].

Definition sample_dir : string := "/tmp/tmpk3x9w2ab".
Definition sample_input : string := "/tmp/tmpk3x9w2ab/input.mp4".

Definition response (r : (exn + pydict) * state) : option (list (string * json)) :=
  match r.1 with
  | inr d => Some (map_to_list d)
  | inl _ => None
  end.

(** One field of the response of a run. *)
Definition field (r : (exn + pydict) * state) (key : string) : option json :=
  match r.1 with
  | inr d => d !! key
  | inl _ => None
  end.

End Sample.

(** * Properties *)

(** ** Running monadic code *)

(** Symbolic execution of the primitive steps. *)
Ltac msimp :=
  repeat progress
    (cbv beta iota delta
       [mbind M_bind bind ret raise lift emit print get_fs set_fs get_temp_dir
        set_temp_dir when try_except try_finally];
     cbn [st_fs st_trace st_temp_dir fst snd negb andb orb
          returncode stdout stderr exn_msg exn_cls]).

Tactic Notation "msimp" "in" hyp(E) :=
  repeat progress
    (cbv beta iota delta
       [mbind M_bind bind ret raise lift emit print get_fs set_fs get_temp_dir
        set_temp_dir when try_except try_finally] in E;
     cbn [st_fs st_trace st_temp_dir fst snd negb andb orb
          returncode stdout stderr exn_msg exn_cls] in E).

Section Calculus.
Context `{PyBuiltins} (W : world).

Lemma bind_run {A B} (m : M A) (k : A -> M B) st :
  (x ← m; k x) st =
  match m st with
  | (inr a, st') => k a st'
  | (inl e, st') => (inl e, st')
  end.
Proof. reflexivity. Qed.

Lemma bind_inr {A B} (m : M A) (k : A -> M B) st a st' :
  m st = (inr a, st') -> (x ← m; k x) st = k a st'.
Proof. intros E. rewrite bind_run, E. reflexivity. Qed.

Lemma bind_inl {A B} (m : M A) (k : A -> M B) st e st' :
  m st = (inl e, st') -> (x ← m; k x) st = (inl e, st').
Proof. intros E. rewrite bind_run, E. reflexivity. Qed.

Lemma bind_inv {A B} (m : M A) (k : A -> M B) st b st' :
  (x ← m; k x) st = (inr b, st') ->
  exists a st1, m st = (inr a, st1) /\ k a st1 = (inr b, st').
Proof.
  rewrite bind_run. destruct (m st) as [[e | a] st1]; [discriminate | eauto].
Qed.

Lemma extends_refl P st : extends W P st st.
Proof.
  split; [exists []; split; [symmetry; apply app_nil_r | constructor] | now left].
Qed.

Lemma extends_trans P st1 st2 st3 :
  extends W P st1 st2 -> extends W P st2 st3 -> extends W P st1 st3.
Proof.
  intros [[e1 [T1 F1]] D1] [[e2 [T2 F2]] D2]. split.
  - exists (e1 ++ e2). split.
    + rewrite T2, T1. symmetry. apply app_assoc.
    + apply Forall_app; auto.
  - destruct D2 as [D2 | D2]; [rewrite D2; exact D1 | now right].
Qed.

Lemma extends_weaken (P Q : effect -> Prop) st st' :
  (forall e, P e -> Q e) -> extends W P st st' -> extends W Q st st'.
Proof.
  intros PQ [[evs [T F]] D]. split; [| exact D].
  exists evs. split; [exact T | eapply Forall_impl; eauto].
Qed.

Lemma sat_ret {A} P (a : A) : sat W P (ret a).
Proof. intros st r st' E. injection E as <- <-. apply extends_refl. Qed.

Lemma sat_raise {A} P c msg : sat W P (raise (A := A) c msg).
Proof. intros st r st' E. injection E as <- <-. apply extends_refl. Qed.

Lemma sat_lift {A} P (x : exn + A) : sat W P (lift x).
Proof. intros st r st' E. injection E as <- <-. apply extends_refl. Qed.

Lemma sat_get_fs P : sat W P get_fs.
Proof. intros st r st' E. injection E as <- <-. apply extends_refl. Qed.

Lemma sat_get_temp_dir P : sat W P get_temp_dir.
Proof. intros st r st' E. injection E as <- <-. apply extends_refl. Qed.

Lemma sat_set_fs P fs : sat W P (set_fs fs).
Proof.
  intros st r st' E. injection E as <- <-.
  split; [exists []; split; [symmetry; apply app_nil_r | constructor] | now left].
Qed.

Lemma sat_emit (P : effect -> Prop) e : P e -> sat W P (emit e).
Proof.
  intros Pe st r st' E. injection E as <- <-.
  split; [exists [e]; split; [reflexivity | repeat constructor; exact Pe] | now left].
Qed.

Lemma sat_print (P : effect -> Prop) l : P (Print l) -> sat W P (print l).
Proof. apply sat_emit. Qed.

Lemma sat_set_workdir P name :
  w_mkdtemp W = inr name -> sat W P (set_temp_dir (Some (workdir W name))).
Proof.
  intros E st r st' E'. injection E' as <- <-.
  split; [exists []; split; [symmetry; apply app_nil_r | constructor] |].
  right. exists name. split; [exact E | reflexivity].
Qed.

Lemma sat_bind {A B} P (m : M A) (k : A -> M B) :
  sat W P m -> (forall a, sat W P (k a)) -> sat W P (x ← m; k x).
Proof.
  intros Sm Sk st r st' E. rewrite bind_run in E.
  destruct (m st) as [[e | a] st1] eqn:Em.
  - injection E as <- <-. eapply Sm, Em.
  - eapply extends_trans; [eapply Sm, Em | eapply Sk, E].
Qed.

(** The continuation may rely on what [m] is known to return. *)
Lemma sat_bind_post {A B} P (Q : A -> Prop) (m : M A) (k : A -> M B) :
  (forall st a st', m st = (inr a, st') -> Q a) ->
  sat W P m -> (forall a, Q a -> sat W P (k a)) -> sat W P (x ← m; k x).
Proof.
  intros Qm Sm Sk st r st' E. rewrite bind_run in E.
  destruct (m st) as [[e | a] st1] eqn:Em.
  - injection E as <- <-. eapply Sm, Em.
  - eapply extends_trans; [eapply Sm, Em | eapply Sk, E]. eapply Qm, Em.
Qed.

Lemma sat_try_except {A} P (body : M A) (h : exn -> M A) :
  sat W P body -> (forall e, sat W P (h e)) -> sat W P (try_except body h).
Proof.
  intros Sb Sh st r st' E. unfold try_except in E.
  destruct (body st) as [[e | a] st1] eqn:Eb.
  - eapply extends_trans; [eapply Sb, Eb | eapply Sh, E].
  - injection E as <- <-. eapply Sb, Eb.
Qed.

Lemma sat_try_finally {A} P (body : M A) (fin : M unit) :
  sat W P body -> sat W P fin -> sat W P (try_finally body fin).
Proof.
  intros Sb Sf st r st' E. unfold try_finally in E.
  destruct (body st) as [rb st1] eqn:Eb.
  destruct (fin st1) as [[e | u] st2] eqn:Ef; injection E as <- <-;
    (eapply extends_trans; [eapply Sb, Eb | eapply Sf, Ef]).
Qed.

Lemma sat_when P c m : sat W P m -> sat W P (when c m).
Proof. destruct c; [trivial | intros _; apply sat_ret]. Qed.

Lemma sat_if {A} P (c : bool) (m1 m2 : M A) :
  sat W P m1 -> sat W P m2 -> sat W P (if c then m1 else m2).
Proof. destruct c; trivial. Qed.

End Calculus.

(** Inversion of a run that returned: one run per step. *)
Ltac minv E :=
  repeat (let a := fresh "a" in let st1 := fresh "st" in let E1 := fresh "E" in
          apply bind_inv in E as (a & st1 & E1 & E)).

(** ** What each function adds to the trace *)

Section Traces.
Context `{PyBuiltins} (W : world).
Variable P : effect -> Prop.
Hypothesis P_print : forall l, P (Print l).

Ltac sat_auto :=
  repeat first
    [ apply sat_ret | apply sat_raise | apply sat_lift | apply sat_get_fs
    | apply sat_set_fs | apply sat_get_temp_dir | apply sat_when
    | apply sat_print; apply P_print
    | apply sat_emit; solve [auto]
    | apply sat_bind | apply sat_try_except | apply sat_if
    | progress intros
    | match goal with
      | |- sat _ _ (match ?x with _ => _ end) => destruct x
      end ].

Lemma sat_getsize p : sat W P (getsize W p).
Proof. unfold getsize. sat_auto. Qed.

Lemma sat_read_file p : sat W P (read_file p).
Proof. unfold read_file. sat_auto. Qed.

Lemma sat_append_file p c : sat W P (append_file p c).
Proof. unfold append_file. sat_auto. Qed.

Lemma sat_open_write p : sat W P (open_write W p).
Proof. unfold open_write. sat_auto. Qed.

Lemma sat_write_file p n c : sat W P (write_file W p n c).
Proof. unfold write_file, append_file. sat_auto. Qed.

Lemma sat_write_chunks dest total cs n :
  sat W P (write_chunks W dest total cs n).
Proof.
  revert n. induction cs as [| chunk rest IH]; intros n; simpl.
  - apply sat_ret.
  - destruct chunk; [apply IH |].
    sat_auto; auto using sat_write_file.
Qed.

Lemma sat_subprocess_run cmd t c :
  P (CallRun cmd t c) -> sat W P (subprocess_run W cmd t c).
Proof. intros Pc. unfold subprocess_run. sat_auto. Qed.

Lemma sat_download_file url dest :
  P (CallHttpGet url 300) -> sat W P (download_file W url dest).
Proof.
  intros Pc. unfold download_file, http_get.
  sat_auto; auto using sat_write_chunks, sat_open_write.
Qed.

Lemma sat_get_video_duration p :
  P (CallRun (ffprobe_cmd p) None true) -> sat W P (get_video_duration W p).
Proof.
  intros Pc. unfold get_video_duration. sat_auto.
Qed.

Lemma sat_extract_clip i o s d q :
  (forall settings,
      P (CallRun (ffmpeg_clip_cmd i o s d settings) (Some 600%Z) false)) ->
  sat W P (extract_clip W i o s d q).
Proof.
  intros Pc. unfold extract_clip. sat_auto.
Qed.

Lemma sat_generate_thumbnail i o t :
  (forall cmd, P (CallRun cmd (Some 30%Z) false)) ->
  sat W P (generate_thumbnail W i o t).
Proof.
  intros Pc. unfold generate_thumbnail. sat_auto;
    auto using sat_subprocess_run, sat_getsize.
Qed.

Lemma sat_mkdtemp : P CallMkdtemp -> sat W P (mkdtemp W).
Proof. intros Pc. unfold mkdtemp. sat_auto. Qed.

Lemma mkdtemp_result st d st' :
  mkdtemp W st = (inr d, st') ->
  exists name, w_mkdtemp W = inr name /\ d = workdir W name.
Proof.
  unfold mkdtemp. rewrite bind_run. simpl.
  destruct (w_mkdtemp W) as [msg | name]; [discriminate |].
  intros E. injection E as <- _. eauto.
Qed.

Lemma sat_url_string v : sat W P (url_string v).
Proof. unfold url_string. sat_auto. Qed.

Lemma sat_prepare ev :
  P CallMkdtemp -> (forall u, P (CallHttpGet u 300)) ->
  (forall p, P (CallRun (ffprobe_cmd p) None true)) ->
  sat W P (prepare W ev).
Proof.
  intros Pm Ph Pr. unfold prepare.
  apply sat_bind; [sat_auto | intros _].
  eapply sat_bind_post; [apply mkdtemp_result | apply sat_mkdtemp, Pm |].
  intros d (name & E & ->).
  apply sat_bind; [apply sat_set_workdir, E | intros _].
  sat_auto; auto using sat_write_chunks, sat_open_write, sat_url_string.
Qed.

Lemma sat_rmtree p : P (CallRmtree p) -> sat W P (rmtree W p).
Proof. intros Pc. unfold rmtree. sat_auto. Qed.

Lemma sat_cleanup : (forall p, P (CallRmtree p)) -> sat W P (cleanup W).
Proof. intros Pc. unfold cleanup. sat_auto; apply sat_rmtree, Pc. Qed.

Lemma sat_clip_job job t i D :
  (forall i o s d settings,
      P (CallRun (ffmpeg_clip_cmd i o s d settings) (Some 600%Z) false)) ->
  sat W P (clip_job W job t i D).
Proof.
  intros Pc. unfold clip_job. sat_auto.
Qed.


Lemma sat_handler ev :
  (forall p, P (CallRmtree p)) ->
  sat W P (handler_try W ev) ->
  forall st r st', handler W ev st = (r, st') -> extends W P (entered ev st) st'.
Proof.
  intros Pc St st r st' E.
  assert (S : sat W P (try_finally (try_except (handler_try W ev) (on_failure ev))
                                   (cleanup W))).
  { apply sat_try_finally; [apply sat_try_except | apply sat_cleanup, Pc].
    - exact St.
    - intros e. unfold on_failure. sat_auto. }
  eapply S, E.
Qed.

End Traces.

(** ** The handler as a whole *)

Section Pipeline.
Context `{PyBuiltins} (W : world).

Lemma handler_unfold ev st :
  handler W ev st =
  try_finally (try_except (handler_try W ev) (on_failure ev)) (cleanup W)
    (entered ev st).
Proof. reflexivity. Qed.

Lemma workdir_nonempty name : workdir W name <> "".
Proof.
  unfold workdir, path_join. simpl.
  destruct (String.eqb _ _ || _); destruct (w_tmp_root W); discriminate.
Qed.

Lemma cleanup_returns st : exists st', cleanup W st = (inr tt, st').
Proof.
  unfold cleanup. msimp.
  destruct (st_temp_dir st) as [d |]; [| eexists; reflexivity].
  destruct (negb (String.eqb d "") && path_exists (st_fs st) d);
    [| eexists; reflexivity].
  unfold rmtree. msimp.
  destruct (w_rmtree W d); eexists; reflexivity.
Qed.

(** The handler always returns a response: no exception leaves it. *)
Lemma handler_returns ev st : exists r st', handler W ev st = (inr r, st').
Proof.
  rewrite handler_unfold. unfold try_finally, try_except.
  destruct (handler_try W ev (entered ev st)) as [[e | r] st1].
  - unfold on_failure. msimp.
    edestruct cleanup_returns as [st' ->]. eauto.
  - edestruct cleanup_returns as [st' ->]. eauto.
Qed.

(** What the handler answers, from how the [try] block ended. *)
Lemma handler_response ev st r st' :
  handler W ev st = (r, st') ->
  match handler_try W ev (entered ev st) with
  | (inr d, st1) => r = inr d /\ cleanup W st1 = (inr tt, st')
  | (inl e, st1) =>
      r = inr (failure_response ev (exn_msg e)) /\
      cleanup W (State (st_fs st1)
                   (st_trace st1 ++ [Print (LogJobFailed (exn_msg e))])
                   (st_temp_dir st1)) = (inr tt, st')
  end.
Proof.
  rewrite handler_unfold. unfold try_finally, try_except.
  destruct (handler_try W ev (entered ev st)) as [[e | d] st1].
  - unfold on_failure. msimp.
    edestruct cleanup_returns as [st2 E]. rewrite E.
    intros E'. injection E' as <- <-. auto.
  - edestruct cleanup_returns as [st2 E]. rewrite E.
    intros E'. injection E' as <- <-. auto.
Qed.

(** [prepare] up to the download, for a URL that is there. *)
Lemma prepare_in_workspace ev st name :
  truthy (dict_get (event_input ev) "video_url" JNull) = true ->
  w_mkdtemp W = inr name ->
  prepare W ev st =
    (url ← url_string (dict_get (event_input ev) "video_url" JNull);
     let input_path := input_path_of W name url in
     download_file W url input_path;;
     video_duration ← get_video_duration W input_path;
     ret (workdir W name, input_path, video_duration))
      (in_workspace W name st).
Proof.
  intros T M. unfold prepare, mkdtemp, in_workspace. msimp.
  rewrite T, M. msimp. rewrite <- app_assoc. reflexivity.
Qed.

Lemma in_workspace_extends P ev st name :
  P CallMkdtemp -> (forall l, P (Print l)) ->
  w_mkdtemp W = inr name ->
  extends W P (entered ev st) (in_workspace W name (entered ev st)).
Proof.
  intros P1 P2 M. split.
  - eexists. split; [reflexivity |]. repeat constructor; auto.
  - right. eauto.
Qed.

End Pipeline.

(** ** Requests and responses *)

Section Requests.
Context `{PyBuiltins} (W : world).

Lemma failure_response_fields ev msg :
  failure_response ev msg !! "success" = Some (JBool false) /\
  failure_response ev msg !! "error" = Some (JStr msg) /\
  failure_response ev msg !! "operation" =
    Some (dict_get (event_input ev) "operation" (JStr "unknown")).
Proof. repeat split. Qed.

Lemma clip_job_response job t i D st r st' :
  clip_job W job t i D st = (inr r, st') ->
  r !! "success" = Some (JBool true) /\
  r !! "operation" = Some (JStr "extract_clip") /\
  is_Some (r !! "clip_data").
Proof.
  unfold clip_job. intros E. minv E.
  injection E as <- <-. repeat split. eexists. reflexivity.
Qed.

Lemma not_thumbnail_eq_str ev :
  not_thumbnail ev ->
  eq_str (dict_get (event_input ev) "operation" (JStr "extract_clip"))
         "generate_thumbnail" = false.
Proof.
  unfold dict_get. intros [-> | (s & -> & Hs)]; [reflexivity |].
  simpl. apply String.eqb_neq, Hs.
Qed.

Lemma dispatch_not_thumbnail ev t i D :
  not_thumbnail ev -> dispatch W ev t i D = clip_job W (event_input ev) t i D.
Proof.
  intros N. unfold dispatch. rewrite (not_thumbnail_eq_str ev N). reflexivity.
Qed.

Lemma clip_pipeline_handler_try ev :
  not_thumbnail ev -> sat W clip_pipeline (handler_try W ev).
Proof.
  intros N. unfold handler_try.
  apply sat_bind.
  - apply sat_prepare; intros; try exact I. left. eauto.
  - intros [[t i] D]. rewrite (dispatch_not_thumbnail ev t i D N).
    apply sat_bind; [| intros r; apply sat_bind; [apply sat_print | intros; apply sat_ret]; exact I].
    apply sat_clip_job; [intros; exact I |].
    intros i' o s d settings. right. eauto 10.
Qed.

(** The three command lines are told apart by their shape. *)
Lemma clip_command_is_no_probe i o s d settings t c :
  ~ probe_only (CallRun (ffmpeg_clip_cmd i o s d settings) t c).
Proof. intros [p E]. discriminate E. Qed.

Lemma thumbnail_command_is_no_probe i o time t c :
  ~ probe_only (CallRun (ffmpeg_thumbnail_cmd i o time) t c).
Proof. intros [p E]. discriminate E. Qed.

Lemma thumbnail_command_is_no_clip i o time t c :
  ~ clip_pipeline (CallRun (ffmpeg_thumbnail_cmd i o time) t c).
Proof.
  intros [[p E] | (i' & o' & s & d & settings & E)]; [discriminate E |].
  unfold ffmpeg_thumbnail_cmd, ffmpeg_clip_cmd in E.
  injection E as _ _ _ E. discriminate E.
Qed.

(** C4 (amended).  When [video_url] is absent or empty the handler
    answers [{success: false, error: "video_url is required",
    operation: op}], where [op] is the request's [operation] field, or
    ["unknown"] when the request has none; no workspace is created, no
    call leaves the process, and the disk is as it was. *)
Theorem missing_video_url ev st :
  truthy (dict_get (event_input ev) "video_url" JNull) = false ->
  handler W ev st =
    (inr (failure_response ev "video_url is required"),
     State (st_fs st)
           (st_trace st ++ [Print (LogReceived (event_input ev));
                            Print (LogJobFailed "video_url is required")])
           None) /\
  failure_response ev "video_url is required" !! "operation" =
    Some (dict_get (event_input ev) "operation" (JStr "unknown")).
Proof.
  intros T. split; [| reflexivity].
  rewrite handler_unfold. unfold handler_try, prepare, entered, on_failure, cleanup.
  msimp. rewrite T. msimp. rewrite <- app_assoc. reflexivity.
Qed.

End Requests.

(** ** Binary64 subtraction below zero *)

Section FloatFacts.

Lemma digits2_pos_upper m : (Z.pos m < 2 ^ Z.pos (digits2_pos m))%Z.
Proof.
  induction m as [m IH | m IH |]; simpl digits2_pos.
  - rewrite Pos2Z.inj_succ, Z.pow_succ_r by lia. lia.
  - rewrite Pos2Z.inj_succ, Z.pow_succ_r by lia. lia.
  - reflexivity.
Qed.

Lemma digits2_pos_lower m : (2 ^ Z.pos (digits2_pos m) <= 2 * Z.pos m)%Z.
Proof.
  induction m as [m IH | m IH |]; simpl digits2_pos.
  - rewrite Pos2Z.inj_succ, Z.pow_succ_r by lia. lia.
  - rewrite Pos2Z.inj_succ, Z.pow_succ_r by lia. lia.
  - reflexivity.
Qed.

Lemma iter_xO_double m d : (2 * Z.pos m <= Z.pos (Pos.iter xO m d))%Z.
Proof.
  induction d as [| d IH] using Pos.peano_ind.
  - simpl. lia.
  - rewrite Pos.iter_succ. lia.
Qed.

Lemma iter_pos_inv {A} (f : A -> A) (Q : A -> Prop) :
  (forall x, Q x -> Q (f x)) -> forall n x, Q x -> Q (SpecFloat.iter_pos f n x).
Proof.
  intros Hf. induction n as [n IH | n IH |]; intros x Qx; simpl; auto.
Qed.

Lemma shr_1_nonneg mrs : (0 <= shr_m mrs)%Z -> (0 <= shr_m (shr_1 mrs))%Z.
Proof.
  destruct mrs as [m r s]. simpl.
  destruct m as [| p | p]; [simpl; lia | destruct p; simpl; lia | lia].
Qed.

Lemma shr_nonneg mrs e n :
  (0 <= shr_m mrs)%Z -> (0 <= shr_m (fst (shr mrs e n)))%Z.
Proof.
  intros Hm. destruct n as [| p | p]; simpl; auto.
  apply iter_pos_inv; auto using shr_1_nonneg.
Qed.

Lemma shr_fexp_nonneg m e l :
  (0 <= m)%Z -> (0 <= shr_m (fst (shr_fexp prec emax m e l)))%Z.
Proof.
  intros Hm. unfold shr_fexp. apply shr_nonneg.
  destruct l as [| []]; simpl; exact Hm.
Qed.

Lemma round_nearest_even_nonneg m l :
  (0 <= m)%Z -> (0 <= round_nearest_even m l)%Z.
Proof.
  intros Hm. destruct l as [| []]; simpl; try lia.
  destruct (Z.even m); lia.
Qed.

(** A number that is rounded keeps its sign. *)
Lemma binary_round_aux_signed s m e l :
  (0 <= m)%Z -> signed s (binary_round_aux prec emax s m e l).
Proof.
  intros Hm. unfold binary_round_aux.
  pose proof (shr_fexp_nonneg m e l Hm) as H1.
  destruct (shr_fexp prec emax m e l) as [mrs' e'] eqn:E1. simpl in H1.
  pose proof (shr_fexp_nonneg _ e' loc_Exact
                (round_nearest_even_nonneg _ (loc_of_shr_record mrs') H1)) as H2.
  destruct (shr_fexp prec emax _ e' loc_Exact) as [mrs'' e''] eqn:E2. simpl in H2.
  destruct (shr_m mrs'') as [| p | p]; [reflexivity | | lia].
  destruct (Z.leb e'' (emax - prec)); reflexivity.
Qed.

Lemma binary_round_signed s m e : signed s (binary_round prec emax s m e).
Proof.
  unfold binary_round. destruct (shl_align _ _ _) as [mz ez].
  apply binary_round_aux_signed. lia.
Qed.

Lemma SFleb_negative_zero x : signed true x -> SFleb x (S754_zero false) = true.
Proof. destruct x as [s | s | | s m e]; simpl; intros S; try subst s; easy. Qed.

Lemma canonical_digits m e :
  bounded prec emax m e = true ->
  (e = Z.max (Z.pos (digits2_pos m) + e - prec) emin)%Z.
Proof.
  unfold bounded, canonical_mantissa, fexp. intros B.
  apply andb_prop in B as [B _]. apply Z.eqb_eq in B. unfold emin. 
  change (SpecFloat.emin prec emax) with (3 - emax - prec)%Z in B. lia.
Qed.

(** The core of the comparison: a smaller positive number, aligned to
    the common exponent, has the smaller mantissa. *)
Lemma aligned_le mx ex my ey :
  bounded prec emax mx ex = true -> bounded prec emax my ey = true ->
  SFleb (S754_finite false mx ex) (S754_finite false my ey) = true ->
  let ez := Z.min ex ey in
  (Z.pos (fst (shl_align mx ex ez)) - Z.pos (fst (shl_align my ey ez)) <= 0)%Z.
Proof.
  intros Bx By L ez. subst ez.
  apply canonical_digits in Bx, By.
  unfold SFleb, SFcompare in L.
  destruct (Z.compare ex ey) eqn:C.
  - apply Z.compare_eq in C. subst ey. rewrite Z.min_id.
    unfold shl_align. rewrite Z.sub_diag. simpl.
    rewrite Pos.compare_cont_spec in L. simpl in L.
    destruct (Pos.compare mx my) eqn:C'; try discriminate.
    + apply Pos.compare_eq in C'. subst. lia.
    + apply Pos2Z.pos_lt_pos in C'. lia.
  - rewrite Z.compare_lt_iff in C. rewrite Z.min_l by lia.
    unfold shl_align. rewrite Z.sub_diag.
    destruct (ex - ey)%Z as [| p | p] eqn:D; try lia. simpl.
    pose proof (iter_xO_double my p).
    pose proof (digits2_pos_upper mx). pose proof (digits2_pos_lower my).
    assert (Z.pos (digits2_pos mx) <= Z.pos (digits2_pos my))%Z by (unfold emin in *; lia).
    assert (2 ^ Z.pos (digits2_pos mx) <= 2 ^ Z.pos (digits2_pos my))%Z
      by (apply Z.pow_le_mono_r; lia).
    lia.
  - discriminate.
Qed.

Lemma SFsub_nonpos x y z :
  valid_binary x = true -> valid_binary y = true ->
  SFltb (S754_zero false) x = true ->
  SFleb x y = true ->
  SFltb x (SF64add y z) = true ->
  SFleb (SF64sub x y) (S754_zero false) = true.
Proof.
  intros Vx Vy Px Lxy Lxyz.
  destruct x as [sx | sx | | sx mx ex]; try discriminate.
  - (* infinite *)
    destruct sx; [discriminate |].
    destruct y as [sy | [] | | sy my ey]; try discriminate.
    destruct z as [sz | [] | | sz mz ez]; discriminate.
  - destruct sx; [discriminate |].
    destruct y as [sy | [] | | [] my ey]; try discriminate.
    + reflexivity.
    + unfold SF64sub, SFsub.
      pose proof (aligned_le mx ex my ey Vx Vy Lxy) as A. simpl in A.
      unfold cond_Zopp.
      destruct (_ - _)%Z as [| p | p] eqn:D; try lia.
      * reflexivity.
      * simpl. apply SFleb_negative_zero, binary_round_signed.
Qed.

Lemma sub_nonpos (D s d : float) :
  (0 <? D)%float = true -> (D <=? s)%float = true ->
  (D <? s + d)%float = true -> (D - s <=? 0)%float = true.
Proof.
  rewrite !ltb_spec, !leb_spec, add_spec, sub_spec.
  change (Prim2SF 0) with (S754_zero false).
  apply SFsub_nonpos; apply Prim2SF_valid.
Qed.

End FloatFacts.

(** ** The clip branch *)

Ltac sat_any :=
  repeat first
    [ apply sat_ret | apply sat_raise | apply sat_lift | apply sat_get_fs
    | apply sat_set_fs | apply sat_get_temp_dir
    | apply sat_emit; exact I | apply sat_print; exact I
    | apply sat_bind | apply sat_if | apply sat_try_except | apply sat_when
    | progress intros
    | match goal with
      | |- sat _ _ (match ?x with _ => _ end) => destruct x
      end ].

Section Clip.
Context `{PyBuiltins} (W : world).

Lemma grows_trace st st' :
  extends W anything st st' -> exists evs, st_trace st' = st_trace st ++ evs.
Proof. intros [[evs [E _]] _]. eauto. Qed.

(** The command is started before anything else happens. *)
Lemma run_clip_command_starts cmd o st r st' :
  run_clip_command W cmd o st = (r, st') ->
  exists rest, st_trace st' = st_trace st ++ CallRun cmd (Some 600%Z) false :: rest.
Proof.
  intros E.
  assert (G : extends W anything (pushed (CallRun cmd (Some 600%Z) false) st) st').
  { revert E. unfold run_clip_command, subprocess_run.
    match goal with
    | |- try_except (x ← (emit ?c;; ?k); @?k2 x) ?h st = _ -> _ =>
        change (try_except (x ← k; k2 x) h (pushed c st) = (r, st') -> 
                extends W anything (pushed c st) st');
        assert (S : sat W anything (try_except (x ← k; k2 x) h))
    end.
    { unfold getsize. sat_any. }
    intros E. eapply S, E. }
  apply grows_trace in G as [evs G]. exists evs.
  rewrite G. unfold pushed. simpl. rewrite <- app_assoc. reflexivity.
Qed.

(** [extract_clip] first logs the arguments it was called with, then,
    once the preset is found, the command, and starts it. *)
Lemma extract_clip_starts i o s d q st r st' :
  extract_clip W i o s d q st = (r, st') ->
  exists rest,
    st_trace st' = st_trace st ++ Print (LogExtracting s d q) :: rest /\
    forall settings, lookup_preset q = inr settings ->
      let cmd := ffmpeg_clip_cmd i o s d settings in
      exists rest',
        rest = Print (LogCommand (str_join " " cmd))
                 :: CallRun cmd (Some 600%Z) false :: rest'.
Proof.
  unfold extract_clip. intros E.
  destruct (lookup_preset q) as [e | settings] eqn:L.
  - msimp in E. injection E as <- <-. exists []. split; [reflexivity |].
    intros settings' E'. discriminate.
  - msimp in E. apply run_clip_command_starts in E as [rest E].
    simpl in E. eexists. split.
    + rewrite E, <- !app_assoc. reflexivity.
    + intros settings' E'. injection E' as <-. simpl. eauto.
Qed.

(** With valid times, the clip branch clamps, extracts, reads and
    answers. *)
Lemma clip_job_valid job t i D st s d :
  py_float (dict_get job "start_time" (JInt 0)) = inr s ->
  py_float (dict_get job "duration" (JInt 30)) = inr d ->
  (s <? 0)%float = false -> (d <=? 0)%float = false ->
  let q := dict_get job "quality" (JStr "medium") in
  let fmt := dict_get job "output_format" (JStr "mp4") in
  let o := path_join t ("output." +:+ py_str fmt) in
  let d' := if clamps D s d then (D - s)%float else d in
  clip_job W job t i D st =
    (extract_clip W i o s d' q;;
     output_data ← read_file o;
     ret (list_to_map
            [("success", JBool true);
             ("operation", JStr "extract_clip");
             ("clip_data", JStr (b64encode output_data));
             ("file_size", JInt (Z.of_nat (length output_data)));
             ("format", fmt);
             ("start_time", JFloat s);
             ("duration", JFloat d');
             ("quality", q);
             ("video_duration", JFloat D)]))
      (if clamps D s d then pushed (Print LogWarnClamp) st else st).
Proof.
  intros Es Ed Vs Vd q fmt o d'. unfold clip_job.
  rewrite Es, Ed. msimp. rewrite Vs, Vd. msimp.
  subst d'. unfold clamps. destruct (_ && _); msimp; destruct st; reflexivity.
Qed.

End Clip.

(** ** Clamping *)

Section Clamping.
Context `{PyBuiltins} (W : world).

(** How a job that reached the clip branch ends, from how the branch
    ended. *)
Lemma handler_clip_run ev st t i D st1 r st' :
  not_thumbnail ev ->
  prepare W ev (entered ev st) = (inr (t, i, D), st1) ->
  handler W ev st = (r, st') ->
  exists rc st2 evs,
    clip_job W (event_input ev) t i D st1 = (rc, st2) /\
    st_trace st' = st_trace st2 ++ evs /\
    r = inr (match rc with
             | inr d => d
             | inl e => failure_response ev (exn_msg e)
             end).
Proof.
  intros N P E. apply handler_response in E.
  unfold handler_try in E. rewrite (bind_inr _ _ _ _ _ P) in E.
  rewrite (dispatch_not_thumbnail W ev t i D N) in E.
  rewrite bind_run in E.
  destruct (clip_job W (event_input ev) t i D st1) as [[e | d] st2] eqn:C.
  - destruct E as [-> E].
    assert (G : extends W anything st2 st').
    { eapply extends_trans; [| eapply (sat_cleanup W anything), E; intros; exact I].
      split; [| now left]. eexists. split; [reflexivity |]. repeat constructor. }
    apply grows_trace in G as [evs G]. eauto 10.
  - msimp in E. destruct E as [-> E].
    assert (G : extends W anything st2 st').
    { eapply extends_trans; [| eapply (sat_cleanup W anything), E; intros; exact I].
      split; [| now left]. eexists. split; [reflexivity |]. repeat constructor. }
    apply grows_trace in G as [evs G]. eauto 10.
Qed.

(** The run of a clip job whose request reaches past the end of the
    video, up to the start of the transcoder: shared by the two theorems
    below. *)
Lemma clamped_run ev st t i D st1 s d :
  not_thumbnail ev ->
  prepare W ev (entered ev st) = (inr (t, i, D), st1) ->
  py_float (dict_get (event_input ev) "start_time" (JInt 0)) = inr s ->
  py_float (dict_get (event_input ev) "duration" (JInt 30)) = inr d ->
  (s <? 0)%float = false -> (d <=? 0)%float = false ->
  (0 <? D)%float = true -> (D <? s + d)%float = true ->
  let q := dict_get (event_input ev) "quality" (JStr "medium") in
  let fmt := dict_get (event_input ev) "output_format" (JStr "mp4") in
  let o := path_join t ("output." +:+ py_str fmt) in
  exists r st' rest rc st2,
    handler W ev st = (inr r, st') /\
    clip_job W (event_input ev) t i D st1 = (rc, st2) /\
    r = match rc with
        | inr dct => dct
        | inl e => failure_response ev (exn_msg e)
        end /\
    st_trace st' =
      st_trace st1 ++ Print LogWarnClamp
                   :: Print (LogExtracting s (D - s) q) :: rest /\
    (forall settings, lookup_preset q = inr settings ->
       let cmd := ffmpeg_clip_cmd i o s (D - s) settings in
       exists rest',
         rest = Print (LogCommand (str_join " " cmd))
                  :: CallRun cmd (Some 600%Z) false :: rest').
Proof.
  intros N P Es Ed Vs Vd D0 DL q fmt o.
  destruct (handler_returns W ev st) as (r & st' & E).
  destruct (handler_clip_run ev st t i D st1 _ st' N P E)
    as (rc & st2 & evs & C & T & R).
  injection R as ->. pose proof C as C0.
  rewrite (clip_job_valid W (event_input ev) t i D st1 s d Es Ed Vs Vd) in C.
  unfold clamps in C. rewrite D0, DL in C. cbn [andb] in C.
  fold q fmt o in C. rewrite bind_run in C.
  destruct (extract_clip W i o s (D - s) q (pushed (Print LogWarnClamp) st1))
    as [[e | p] st3] eqn:X;
    apply extract_clip_starts in X as (rest & X & Xs); simpl in X.
  - injection C as <- <-.
    eexists _, st', (rest ++ evs), _, _.
    split; [exact E |]. split; [exact C0 |]. split; [reflexivity |]. split.
    + rewrite T, X, <- !app_assoc. reflexivity.
    + intros settings L. destruct (Xs settings L) as [rest' ->]. simpl. eauto.
  - assert (G : extends W anything st3 st2).
    { revert C.
      match goal with
      | |- ?m st3 = _ -> _ => assert (S : sat W anything m)
      end.
      { unfold read_file. sat_any. }
      intros C. eapply S, C. }
    apply grows_trace in G as [evs' G].
    eexists _, st', (rest ++ evs' ++ evs), _, _.
    split; [exact E |]. split; [exact C0 |]. split; [reflexivity |]. split.
    + rewrite T, G, X, <- !app_assoc. reflexivity.
    + intros settings L. destruct (Xs settings L) as [rest' ->]. simpl. eauto.
Qed.

(** How a job that reached the dispatch ends, from how the branch
    ended. *)
Lemma handler_dispatch_run ev st t i D st1 r st' :
  prepare W ev (entered ev st) = (inr (t, i, D), st1) ->
  handler W ev st = (r, st') ->
  exists rc st2 evs,
    dispatch W ev t i D st1 = (rc, st2) /\
    st_trace st' = st_trace st2 ++ evs /\
    r = inr (match rc with
             | inr d => d
             | inl e => failure_response ev (exn_msg e)
             end).
Proof.
  intros P E. apply handler_response in E.
  unfold handler_try in E. rewrite (bind_inr _ _ _ _ _ P) in E.
  rewrite bind_run in E.
  destruct (dispatch W ev t i D st1) as [[e | d] st2] eqn:C.
  - destruct E as [-> E].
    assert (G : extends W anything st2 st').
    { eapply extends_trans; [| eapply (sat_cleanup W anything), E; intros; exact I].
      split; [| now left]. eexists. split; [reflexivity |]. repeat constructor. }
    apply grows_trace in G as [evs G]. eauto 10.
  - msimp in E. destruct E as [-> E].
    assert (G : extends W anything st2 st').
    { eapply extends_trans; [| eapply (sat_cleanup W anything), E; intros; exact I].
      split; [| now left]. eexists. split; [reflexivity |]. repeat constructor. }
    apply grows_trace in G as [evs G]. eauto 10.
Qed.

(** The run of a clip job that line 257 leaves alone: shared by the theorems on
    clips that are not clamped. *)
Lemma unclamped_run ev st t i D st1 s d :
  not_thumbnail ev ->
  prepare W ev (entered ev st) = (inr (t, i, D), st1) ->
  py_float (dict_get (event_input ev) "start_time" (JInt 0)) = inr s ->
  py_float (dict_get (event_input ev) "duration" (JInt 30)) = inr d ->
  (s <? 0)%float = false -> (d <=? 0)%float = false ->
  clamps D s d = false ->
  let q := dict_get (event_input ev) "quality" (JStr "medium") in
  exists r st' rest,
    handler W ev st = (inr r, st') /\
    st_trace st' = st_trace st1 ++ Print (LogExtracting s d q) :: rest /\
    (r !! "success" = Some (JBool true) ->
     r !! "duration" = Some (JFloat d) /\
     r !! "start_time" = Some (JFloat s) /\
     r !! "video_duration" = Some (JFloat D)).
Proof.
  intros N P Es Ed Vs Vd Cl q.
  destruct (handler_returns W ev st) as (r & st' & E).
  destruct (handler_clip_run ev st t i D st1 _ st' N P E)
    as (rc & st2 & evs & C & T & R).
  injection R as ->.
  rewrite (clip_job_valid W (event_input ev) t i D st1 s d Es Ed Vs Vd) in C.
  rewrite Cl in C. fold q in C. rewrite bind_run in C.
  match type of C with
  | context [extract_clip W i ?o s d q st1] =>
      destruct (extract_clip W i o s d q st1) as [[e | p] st3] eqn:X
  end; apply extract_clip_starts in X as (rest & X & _).
  - injection C as <- <-. eexists _, st', (rest ++ evs).
    split; [exact E |]. split.
    + rewrite T, X, <- !app_assoc. reflexivity.
    + intros S. destruct (failure_response_fields ev (exn_msg e)) as (F & _).
      rewrite F in S. discriminate.
  - assert (G : extends W anything st3 st2).
    { revert C.
      match goal with
      | |- ?m st3 = _ -> _ => assert (S : sat W anything m)
      end.
      { unfold read_file. sat_any. }
      intros C. eapply S, C. }
    apply grows_trace in G as [evs' G].
    eexists _, st', (rest ++ evs' ++ evs).
    split; [exact E |]. split.
    + rewrite T, G, X, <- !app_assoc. reflexivity.
    + destruct rc as [e | dct].
      * intros S. destruct (failure_response_fields ev (exn_msg e)) as (F & _).
        rewrite F in S. discriminate.
      * intros _. apply bind_inv in C as (data & st4 & _ & C).
        injection C as <- _. repeat split.
Qed.

End Clamping.

(** ** Claims on clamping *)

Section ClampingClaims.
Context `{PyBuiltins} (W : world).

(** C1.  In a clip job whose probe gave a duration [D > 0] and whose
    validated [start_time = s] and [duration = d] have [s + d > D],
    [extract_clip] is called with the duration [D - s] (its first log
    line says so, and so does the [-t] argument of the command it
    starts), and a success response reports [duration = D - s] with
    [start_time = s] and [video_duration = D] as they were. *)
Theorem clamped_duration ev st t i D st1 s d :
  not_thumbnail ev ->
  prepare W ev (entered ev st) = (inr (t, i, D), st1) ->
  py_float (dict_get (event_input ev) "start_time" (JInt 0)) = inr s ->
  py_float (dict_get (event_input ev) "duration" (JInt 30)) = inr d ->
  (s <? 0)%float = false -> (d <=? 0)%float = false ->
  (0 <? D)%float = true -> (D <? s + d)%float = true ->
  let q := dict_get (event_input ev) "quality" (JStr "medium") in
  let fmt := dict_get (event_input ev) "output_format" (JStr "mp4") in
  let o := path_join t ("output." +:+ py_str fmt) in
  exists r st' rest,
    handler W ev st = (inr r, st') /\
    st_trace st' =
      st_trace st1 ++ Print LogWarnClamp
                   :: Print (LogExtracting s (D - s) q) :: rest /\
    (forall settings, lookup_preset q = inr settings ->
       let cmd := ffmpeg_clip_cmd i o s (D - s) settings in
       exists rest',
         rest = Print (LogCommand (str_join " " cmd))
                  :: CallRun cmd (Some 600%Z) false :: rest') /\
    (r !! "success" = Some (JBool true) ->
     r !! "duration" = Some (JFloat (D - s)) /\
     r !! "start_time" = Some (JFloat s) /\
     r !! "video_duration" = Some (JFloat D)).
Proof.
  intros N P Es Ed Vs Vd D0 DL q fmt o.
  destruct (clamped_run W ev st t i D st1 s d N P Es Ed Vs Vd D0 DL)
    as (r & st' & rest & rc & st2 & E & C & R & T & X).
  exists r, st', rest. repeat split; try assumption; subst r.
  all: destruct rc as [e | dct];
    [ destruct (failure_response_fields ev (exn_msg e)) as (F & _); congruence |].
  all: rewrite (clip_job_valid W (event_input ev) t i D st1 s d Es Ed Vs Vd) in C;
    unfold clamps in C; rewrite D0, DL in C; cbn [andb] in C;
    apply bind_inv in C as (p & st3 & _ & C);
    apply bind_inv in C as (data & st4 & _ & C);
    injection C as <- _; reflexivity.
Qed.

(** C10.  The check [duration > 0] is made before the clamp only: when
    the probe gave [0 < D <= s] (and [s + d > D]) for validated [s] and
    [d], the handler still calls [extract_clip], with the duration
    [D - s], which is zero or negative, and starts the transcoder with
    it. *)
Theorem clamp_below_zero ev st t i D st1 s d :
  not_thumbnail ev ->
  prepare W ev (entered ev st) = (inr (t, i, D), st1) ->
  py_float (dict_get (event_input ev) "start_time" (JInt 0)) = inr s ->
  py_float (dict_get (event_input ev) "duration" (JInt 30)) = inr d ->
  (s <? 0)%float = false -> (d <=? 0)%float = false ->
  (0 <? D)%float = true -> (D <=? s)%float = true ->
  (D <? s + d)%float = true ->
  let q := dict_get (event_input ev) "quality" (JStr "medium") in
  let fmt := dict_get (event_input ev) "output_format" (JStr "mp4") in
  let o := path_join t ("output." +:+ py_str fmt) in
  (D - s <=? 0)%float = true /\
  exists r st' rest,
    handler W ev st = (inr r, st') /\
    st_trace st' =
      st_trace st1 ++ Print LogWarnClamp
                   :: Print (LogExtracting s (D - s) q) :: rest /\
    (forall settings, lookup_preset q = inr settings ->
       let cmd := ffmpeg_clip_cmd i o s (D - s) settings in
       exists rest',
         rest = Print (LogCommand (str_join " " cmd))
                  :: CallRun cmd (Some 600%Z) false :: rest').
Proof.
  intros N P Es Ed Vs Vd D0 Ds DL q fmt o.
  split; [apply (sub_nonpos D s d D0 Ds DL) |].
  destruct (clamped_run W ev st t i D st1 s d N P Es Ed Vs Vd D0 DL)
    as (r & st' & rest & rc & st2 & E & _ & _ & T & X).
  exists r, st', rest. auto.
Qed.

End ClampingClaims.

(** ** Requests for another operation *)

Section Operations.
Context `{PyBuiltins} (W : world).

Lemma clip_job_reads_no_operation job op t i D :
  clip_job W (<["operation" := op]> job) t i D = clip_job W job t i D.
Proof.
  unfold clip_job, dict_get. rewrite !lookup_insert_ne by discriminate.
  reflexivity.
Qed.

Lemma with_operation_get ev op key dflt :
  key <> "operation" ->
  dict_get (event_input (with_operation ev op)) key dflt =
  dict_get (event_input ev) key dflt.
Proof.
  intros N. unfold dict_get.
  change (event_input (with_operation ev op))
    with (<["operation" := op]> (event_input ev)).
  rewrite lookup_insert_ne by congruence. reflexivity.
Qed.

Lemma prepare_reads_no_operation ev op :
  prepare W (with_operation ev op) = prepare W ev.
Proof.
  unfold prepare. rewrite !with_operation_get by discriminate. reflexivity.
Qed.

Lemma extract_clip_is_not_thumbnail ev :
  not_thumbnail (with_operation ev (JStr "extract_clip")).
Proof.
  right. exists "extract_clip". split; [apply lookup_insert_eq | discriminate].
Qed.

(** The [try] block does with a request that is no thumbnail request
    what it does with the same request for ["extract_clip"]. *)
Lemma handler_try_as_extract_clip ev st :
  not_thumbnail ev ->
  handler_try W ev st = handler_try W (with_operation ev (JStr "extract_clip")) st.
Proof.
  intros N. unfold handler_try. rewrite !bind_run, prepare_reads_no_operation.
  destruct (prepare W ev st) as [[e | [[t i] D]] st1]; [reflexivity |].
  rewrite (dispatch_not_thumbnail W ev t i D N).
  rewrite (dispatch_not_thumbnail W _ t i D (extract_clip_is_not_thumbnail ev)).
  change (event_input (with_operation ev (JStr "extract_clip")))
    with (<["operation" := JStr "extract_clip"]> (event_input ev)).
  rewrite clip_job_reads_no_operation. reflexivity.
Qed.

(** C9.  A request whose [operation] is absent, or is any string but
    ["generate_thumbnail"], is run as a clip extraction and is not
    rejected for its operation: the [try] block runs as it does for the
    same request with [operation = "extract_clip"].  The only child
    processes are the probe and the clip transcoder.  When the [try]
    block completes, the response is the one of the clip branch and
    says [success: true], [operation: "extract_clip"], with
    [clip_data]; when it raises, the response is the failure response.
    And the clip branch is reached: once the video is downloaded and
    probed and the times are valid, [extract_clip] is called (after the
    warning, when the clip is clamped). *)
Theorem other_operations_extract_clip ev st :
  not_thumbnail ev ->
  exists r st',
    handler W ev st = (inr r, st') /\
    handler_try W ev (entered ev st) =
      handler_try W (with_operation ev (JStr "extract_clip")) (entered ev st) /\
    extends W clip_pipeline (entered ev st) st' /\
    match handler_try W ev (entered ev st) with
    | (inr d, _) =>
        r = d /\
        d !! "success" = Some (JBool true) /\
        d !! "operation" = Some (JStr "extract_clip") /\
        is_Some (d !! "clip_data")
    | (inl e, _) => r = failure_response ev (exn_msg e)
    end /\
    (forall t i D st1 s d,
       prepare W ev (entered ev st) = (inr (t, i, D), st1) ->
       py_float (dict_get (event_input ev) "start_time" (JInt 0)) = inr s ->
       py_float (dict_get (event_input ev) "duration" (JInt 30)) = inr d ->
       (s <? 0)%float = false -> (d <=? 0)%float = false ->
       let q := dict_get (event_input ev) "quality" (JStr "medium") in
       exists rest,
         st_trace st' =
           st_trace st1
             ++ (if clamps D s d then [Print LogWarnClamp] else [])
             ++ Print (LogExtracting s (if clamps D s d then (D - s)%float else d) q)
             :: rest).
Proof.
  intros N.
  destruct (handler_returns W ev st) as (r & st' & E).
  exists r, st'. split; [exact E |].
  split; [apply handler_try_as_extract_clip, N |]. split; [| split].
  - eapply sat_handler; [intros; exact I | intros; exact I | | exact E].
    apply clip_pipeline_handler_try, N.
  - pose proof (handler_response W ev st _ _ E) as R.
    destruct (handler_try W ev (entered ev st)) as [[e | d] st1] eqn:Et.
    + destruct R as [R _]. injection R as ->. reflexivity.
    + destruct R as [R _]. injection R as ->. split; [reflexivity |].
      unfold handler_try in Et. minv Et.
      destruct a as [[t i] D]. minv Et. injection Et as <- <-.
      match goal with
      | Ed : dispatch W ev t i D _ = _ |- _ =>
          rewrite (dispatch_not_thumbnail W ev t i D N) in Ed;
          apply clip_job_response in Ed; tauto
      end.
  - intros t i D st1 s d P Es Ed Vs Vd q.
    destruct (clamps D s d) eqn:Cl.
    + apply andb_prop in Cl as [D0 DL].
      destruct (clamped_run W ev st t i D st1 s d N P Es Ed Vs Vd D0 DL)
        as (r0 & st0 & rest & _ & _ & E0 & _ & _ & T & _).
      rewrite E in E0. injection E0 as _ <-. exists rest. exact T.
    + destruct (unclamped_run W ev st t i D st1 s d N P Es Ed Vs Vd Cl)
        as (r0 & st0 & rest & E0 & T & _).
      rewrite E in E0. injection E0 as _ <-. exists rest. exact T.
Qed.

End Operations.


(** ** The duration probe *)

Section Probe.
Context `{PyBuiltins} (W : world).

(** How [get_video_duration] ends: it never raises, and a probe that
    fails gives [0.0] after a warning. *)
Lemma get_video_duration_run path st :
  exists D st',
    get_video_duration W path st = (inr D, st') /\
    (probe_fails W path ->
     D = 0%float /\
     exists msg,
       st_trace st' = st_trace st ++ [CallRun (ffprobe_cmd path) None true;
                                      Print (LogWarnDuration msg)]).
Proof.
  unfold get_video_duration, subprocess_run, probe_fails, py_float. msimp.
  destruct (w_spawn W (ffprobe_cmd path)) as [msg | elapsed rc out err]; msimp.
  - eexists _, _. split; [reflexivity |]. intros _. split; [reflexivity |].
    rewrite <- app_assoc. eauto.
  - destruct (rc =? 0)%Z eqn:Hz; msimp.
    + destruct (float_of_string (strip out)) as [f |] eqn:F; msimp.
      * eexists _, _. split; [reflexivity |].
        apply Z.eqb_eq in Hz. intros [N | N]; [contradiction | discriminate].
      * eexists _, _. split; [reflexivity |]. intros _. split; [reflexivity |].
        rewrite <- app_assoc. eauto.
    + eexists _, _. split; [reflexivity |]. intros _. split; [reflexivity |].
      rewrite <- app_assoc. eauto.
Qed.

(** C7.  [get_video_duration] never raises: when the probe fails (the
    tool cannot be started, exits with a non-zero code, or prints
    something that is not a number) it returns [0.0] and logs a
    warning.  In a job this does not fail anything: when the video has
    been downloaded and the probe fails, line 220 yields a video
    duration of [0.0], the job goes on to the branch of its operation,
    and the response is the one of that branch (its result, or the
    failure response of an error raised there).  In the clip branch the
    value [0.0] switches the clamp off: with valid times [extract_clip]
    is called with the requested duration, without a warning, and a
    success response reports that duration and [video_duration = 0.0]. *)
Theorem probe_failure_is_not_fatal :
  (forall path st,
     exists D st',
       get_video_duration W path st = (inr D, st') /\
       (probe_fails W path ->
        D = 0%float /\
        exists msg,
          st_trace st' = st_trace st ++ [CallRun (ffprobe_cmd path) None true;
                                         Print (LogWarnDuration msg)])) /\
  (forall ev st url name st1,
     dict_get (event_input ev) "video_url" JNull = JStr url -> url <> "" ->
     w_mkdtemp W = inr name ->
     let t := workdir W name in
     let i := input_path_of W name url in
     download_file W url i (in_workspace W name (entered ev st)) = (inr i, st1) ->
     probe_fails W i ->
     exists msg st2,
       prepare W ev (entered ev st) = (inr (t, i, 0%float), st2) /\
       st_trace st2 = st_trace st1 ++ [CallRun (ffprobe_cmd i) None true;
                                       Print (LogWarnDuration msg)] /\
       (exists rc st3 r st' evs,
          dispatch W ev t i 0 st2 = (rc, st3) /\
          handler W ev st = (inr r, st') /\
          r = match rc with
              | inr d => d
              | inl e => failure_response ev (exn_msg e)
              end /\
          st_trace st' = st_trace st3 ++ evs) /\
       (not_thumbnail ev ->
        forall s d,
          py_float (dict_get (event_input ev) "start_time" (JInt 0)) = inr s ->
          py_float (dict_get (event_input ev) "duration" (JInt 30)) = inr d ->
          (s <? 0)%float = false -> (d <=? 0)%float = false ->
          exists r st' rest,
            handler W ev st = (inr r, st') /\
            st_trace st' =
              st_trace st2
                ++ Print (LogExtracting s d
                            (dict_get (event_input ev) "quality" (JStr "medium")))
                :: rest /\
            (r !! "success" = Some (JBool true) ->
             r !! "duration" = Some (JFloat d) /\
             r !! "video_duration" = Some (JFloat 0)))).
Proof.
  split; [apply get_video_duration_run |].
  intros ev st url name st1 U Ne M t i Dl F.
  assert (T : truthy (dict_get (event_input ev) "video_url" JNull) = true).
  { rewrite U. simpl. apply negb_true_iff, String.eqb_neq, Ne. }
  destruct (get_video_duration_run i st1) as (D & st2 & G & Z).
  destruct (Z F) as (-> & msg & Tr).
  assert (P : prepare W ev (entered ev st) = (inr (t, i, 0%float), st2)).
  { rewrite (prepare_in_workspace W ev _ name T M), U.
    unfold url_string. msimp. fold i. rewrite Dl, G. reflexivity. }
  exists msg, st2. split; [exact P |]. split; [exact Tr |]. split.
  - destruct (handler_returns W ev st) as (r & st' & E).
    destruct (handler_dispatch_run W ev st t i 0 st2 _ st' P E)
      as (rc & st3 & evs & C & Te & R).
    injection R as ->. eauto 10.
  - intros N s d Es Ed Vs Vd.
    destruct (unclamped_run W ev st t i 0 st2 s d N P Es Ed Vs Vd eq_refl)
      as (r & st' & rest & E & Te & S).
    exists r, st', rest. split; [exact E |]. split; [exact Te |].
    intros Sc. destruct (S Sc) as (Rd & _ & Rv). auto.
Qed.

End Probe.

(** ** The clip transcoder *)

Section Transcoder.
Context `{PyBuiltins} (W : world).



(** C6.  When the transcoder is started and exits, [extract_clip] ends
    by the first violated condition: more than 600 seconds (10
    minutes) of running time give the time-out error; a non-zero exit
    code gives an error that carries the captured [stderr]; a missing
    output file and an empty output file give an error each; otherwise
    the output path is returned.  The four messages differ whatever
    [stderr] holds. *)
Theorem clip_postconditions i o s d q st elapsed rc out err :
  let settings := default medium_preset (quality_presets !! q) in
  let cmd := ffmpeg_clip_cmd i o s d settings in
  w_spawn W cmd = Exits elapsed rc out err ->
  let disk := w_proc_effect W cmd (st_fs st) in
  let failed msg : exn + string := inl (Exn PlainException msg) in
  (extract_clip W i o s d (JStr q) st).1 =
    (if (600 * 1000 <? elapsed)%Z
     then failed "FFmpeg processing timed out after 10 minutes"
     else if negb (rc =? 0)%Z
     then failed ("FFmpeg error: FFmpeg processing failed: " +:+ err)
     else match disk !! o with
          | None => failed "FFmpeg error: Output file was not created"
          | Some (File []) => failed "FFmpeg error: Output file is empty"
          | Some (File (_ :: _)) => inr o
          | Some Dir =>
              if (w_dir_size W =? 0)%Z
              then failed "FFmpeg error: Output file is empty"
              else inr o
          end) /\
  In (CallRun cmd (Some 600%Z) false) (st_trace (extract_clip W i o s d (JStr q) st).2) /\
  (forall err' : string,
     "FFmpeg error: FFmpeg processing failed: " +:+ err'
       <> "FFmpeg error: Output file was not created" /\
     "FFmpeg error: FFmpeg processing failed: " +:+ err'
       <> "FFmpeg error: Output file is empty" /\
     "FFmpeg error: FFmpeg processing failed: " +:+ err'
       <> "FFmpeg processing timed out after 10 minutes" /\
     "FFmpeg error: Output file was not created"
       <> "FFmpeg error: Output file is empty" /\
     "FFmpeg error: Output file was not created"
       <> "FFmpeg processing timed out after 10 minutes" /\
     "FFmpeg error: Output file is empty"
       <> "FFmpeg processing timed out after 10 minutes").
Proof.
  intros settings cmd S disk failed. split; [| split].
  - unfold extract_clip, run_clip_command, subprocess_run, getsize, lookup_preset.
    fold settings. msimp. fold cmd. rewrite S. msimp.
    destruct (600 * 1000 <? elapsed)%Z; msimp; [reflexivity |].
    destruct (rc =? 0)%Z; msimp; [| reflexivity].
    unfold path_exists. subst disk.
    destruct (w_proc_effect W cmd (st_fs st) !! o) as [[| [| b c]] |] eqn:Dk;
      msimp;
      rewrite ?bool_decide_eq_true_2 by eauto;
      rewrite ?bool_decide_eq_false_2 by (intros [? ?]; discriminate);
      msimp; rewrite ?Dk; msimp; try reflexivity.
    destruct (w_dir_size W =? 0)%Z; reflexivity.
  - destruct (extract_clip W i o s d (JStr q) st) as [r st'] eqn:X.
    apply extract_clip_starts in X as (rest & X & Xs).
    destruct (Xs settings eq_refl) as [rest' ->].
    simpl. rewrite X. apply in_or_app. right. simpl. auto.
  - intros err'. repeat split; simpl; discriminate.
Qed.

End Transcoder.

(** ** Validation of the times *)

Section Validation.
Context `{PyBuiltins} (W : world).

(** A computation that ends in the state it starts from adds nothing. *)
Lemma sat_still {A} P (m : M A) :
  (forall st, exists r, m st = (r, st)) -> sat W P m.
Proof.
  intros S st r st' E. destruct (S st) as [r' E']. rewrite E' in E.
  injection E as _ <-. apply extends_refl.
Qed.

Lemma clip_job_invalid job t i D st :
  bad_times job ->
  exists e,
    clip_job W job t i D st = (inl e, st) /\
    forall s d,
      py_float (dict_get job "start_time" (JInt 0)) = inr s ->
      py_float (dict_get job "duration" (JInt 30)) = inr d ->
      exn_msg e = if (s <? 0)%float then "start_time must be >= 0"
                  else "duration must be > 0".
Proof.
  unfold bad_times, clip_job. msimp.
  destruct (py_float (dict_get job "start_time" (JInt 0))) as [es | s];
    destruct (py_float (dict_get job "duration" (JInt 30))) as [ed | d];
    intros [(s' & Es & Vs) | (d' & Ed & Vd)]; try discriminate; msimp.
  - eexists. split; [reflexivity |]. intros; discriminate.
  - eexists. split; [reflexivity |]. intros; discriminate.
  - injection Es as <-. rewrite Vs. msimp.
    eexists. split; [reflexivity |]. intros ? ? E1 E2.
    injection E1 as <-. rewrite Vs. reflexivity.
  - injection Ed as <-. destruct (s <? 0)%float eqn:Vs; msimp.
    + eexists. split; [reflexivity |]. intros ? ? E1 E2.
      injection E1 as <-. rewrite Vs. reflexivity.
    + rewrite Vd. msimp. eexists. split; [reflexivity |]. intros ? ? E1 E2.
      injection E1 as <-. rewrite Vs. reflexivity.
Qed.

(** A time that [float] rejects ends the clip branch with the error
    [float] raised. *)
Lemma clip_job_unconvertible job t i D st e :
  conversion_error job = Some e -> clip_job W job t i D st = (inl e, st).
Proof.
  unfold conversion_error, clip_job.
  destruct (py_float (dict_get job "start_time" (JInt 0))) as [es | s];
    [intros E; injection E as ->; reflexivity |].
  destruct (py_float (dict_get job "duration" (JInt 30))) as [ed | d];
    [intros E; injection E as ->; reflexivity | discriminate].
Qed.

(** The probe is the first thing [get_video_duration] does. *)
Lemma get_video_duration_starts p st r st' :
  get_video_duration W p st = (r, st') ->
  exists rest, st_trace st' = st_trace st ++ CallRun (ffprobe_cmd p) None true :: rest.
Proof.
  intros E.
  assert (G : extends W anything (pushed (CallRun (ffprobe_cmd p) None true) st) st').
  { revert E. unfold get_video_duration, subprocess_run.
    match goal with
    | |- try_except (x ← (emit ?c;; ?k); @?k2 x) ?h st = _ -> _ =>
        change (try_except (x ← k; k2 x) h (pushed c st) = (r, st') ->
                extends W anything (pushed c st) st');
        assert (S : sat W anything (try_except (x ← k; k2 x) h))
    end.
    { sat_any. }
    intros E. eapply S, E. }
  apply grows_trace in G as [evs G]. exists evs.
  rewrite G. unfold pushed. simpl. rewrite <- app_assoc. reflexivity.
Qed.

Lemma prepare_probes ev st t i D st1 :
  prepare W ev st = (inr (t, i, D), st1) ->
  In (CallRun (ffprobe_cmd i) None true) (st_trace st1).
Proof.
  unfold prepare. intros E. minv E. injection E as <- <- <- <-.
  match goal with
  | G : get_video_duration W _ _ = _ |- _ =>
      apply get_video_duration_starts in G as [rest ->]
  end.
  apply in_or_app. right. left. reflexivity.
Qed.

(** C3 (amended).  A clip request with [start_time < 0] or
    [duration <= 0] fails, and the transcoder is never started: the only
    child process of the job is the duration probe.  The times are
    checked after the download and the probe: when these have run, the
    probe is in the trace, and the error is the validation message if
    [float] accepted both times, and the error [float] raised if it
    rejected one of them (both are converted, on lines 247-248, before
    either is checked). *)
Theorem invalid_times_fail ev st :
  not_thumbnail ev -> bad_times (event_input ev) ->
  exists msg st',
    handler W ev st = (inr (failure_response ev msg), st') /\
    extends W probe_only (entered ev st) st' /\
    forall t i D st1,
      prepare W ev (entered ev st) = (inr (t, i, D), st1) ->
      In (CallRun (ffprobe_cmd i) None true) (st_trace st') /\
      (forall s d,
         py_float (dict_get (event_input ev) "start_time" (JInt 0)) = inr s ->
         py_float (dict_get (event_input ev) "duration" (JInt 30)) = inr d ->
         msg = if (s <? 0)%float then "start_time must be >= 0"
               else "duration must be > 0") /\
      (forall e,
         conversion_error (event_input ev) = Some e -> msg = exn_msg e).
Proof.
  intros N B.
  destruct (handler_returns W ev st) as (r & st' & E). pose proof E as E0.
  assert (X : extends W probe_only (entered ev st) st').
  { eapply sat_handler; [intros; exact I | intros; exact I | | exact E].
    unfold handler_try. apply sat_bind.
    - apply sat_prepare; intros; try exact I. simpl. eauto.
    - intros [[t i] D]. apply sat_still. intros st0.
      rewrite (dispatch_not_thumbnail W ev t i D N).
      destruct (clip_job_invalid (event_input ev) t i D st0 B) as (e & C & _).
      exists (inl e). rewrite bind_run, C. reflexivity. }
  destruct (prepare W ev (entered ev st)) as [[e | [[t i] D]] st1] eqn:P.
  - apply handler_response in E. unfold handler_try in E.
    rewrite (bind_inl _ _ _ _ _ P) in E. destruct E as [R _].
    injection R as ->.
    exists (exn_msg e), st'. split; [exact E0 |]. split; [exact X |].
    intros; discriminate.
  - destruct (handler_clip_run W ev st t i D st1 _ st' N P E)
      as (rc & st2 & evs & C & T & R).
    destruct (clip_job_invalid (event_input ev) t i D st1 B) as (e & C' & M).
    rewrite C' in C. injection C as <- <-. injection R as ->.
    exists (exn_msg e), st'. split; [exact E0 |]. split; [exact X |].
    intros t' i' D' st1' Q. injection Q as <- <- <- <-. split; [| split].
    + rewrite T. apply in_or_app. left. eapply prepare_probes, P.
    + exact M.
    + intros e' Ce.
      rewrite (clip_job_unconvertible (event_input ev) t i D st1 e' Ce) in C'.
      injection C' as ->. reflexivity.
Qed.

End Validation.

(** ** The workspace *)

Section Workspace.
Context `{PyBuiltins} (W : world).





End Workspace.

(** ** The thumbnail generator *)

Section Thumbnail.
Context `{PyBuiltins} (W : world).

(** What [generate_thumbnail] checks once the transcoder has exited in
    time: the exit code and the existence of the output file.  The size
    of the file is logged and not tested. *)
Lemma thumbnail_postconditions i o t st elapsed rc out err :
  let cmd := ffmpeg_thumbnail_cmd i o t in
  w_spawn W cmd = Exits elapsed rc out err ->
  (30 * 1000 <? elapsed)%Z = false ->
  let disk := w_proc_effect W cmd (st_fs st) in
  let failed msg : exn + string := inl (Exn PlainException msg) in
  (generate_thumbnail W i o t st).1 =
    (if negb (rc =? 0)%Z
     then failed ("Thumbnail error: Thumbnail generation failed: " +:+ err)
     else match disk !! o with
          | None => failed "Thumbnail error: Thumbnail file was not created"
          | Some _ => inr o
          end).
Proof.
  intros cmd S T disk failed.
  unfold generate_thumbnail, run_thumbnail_command, subprocess_run, getsize.
  fold cmd. msimp. rewrite S. msimp. rewrite T. msimp.
  destruct (rc =? 0)%Z; msimp; [| reflexivity].
  unfold path_exists. subst disk.
  destruct (w_proc_effect W cmd (st_fs st) !! o) as [[| c] |] eqn:Dk;
    msimp;
    rewrite ?bool_decide_eq_true_2 by eauto;
    rewrite ?bool_decide_eq_false_2 by (intros [? ?]; discriminate);
    msimp; rewrite ?Dk; msimp; reflexivity.
Qed.

End Thumbnail.

(** * Further properties of the handler *)

(** ** The download *)

Section Download.
Context (W : world).

(** One turn of the loop of lines 29-36 on a chunk that is not empty
    and is written. *)
Lemma write_chunks_step dest total b chunk rest n st c0 :
  st_fs st !! dest = Some (File c0) ->
  w_write W dest n = None ->
  let ch := b :: chunk in
  let n1 := (n + Z.of_nat (length ch))%Z in
  let logged := andb (0 <? total)%Z (n1 mod (1024 * 1024) =? 0)%Z in
  write_chunks W dest total (ch :: rest) n st =
  write_chunks W dest total rest n1
    (State (<[dest := File (c0 ++ ch)]> (st_fs st))
           (if logged
            then st_trace st ++ [Print (LogDownloadProgress n1 total)]
            else st_trace st)
           (st_temp_dir st)).
Proof.
  intros F Wr ch n1 logged. subst ch n1 logged.
  cbn [write_chunks]. unfold write_file, append_file. rewrite Wr.
  msimp. rewrite F. msimp.
  destruct (andb _ _); msimp; reflexivity.
Qed.

(** When no write fails, the loop appends every chunk to the file and
    counts the bytes. *)
Lemma write_chunks_run dest total cs n st c0 :
  st_fs st !! dest = Some (File c0) ->
  write_error W dest cs n = None ->
  exists st',
    write_chunks W dest total cs n st
      = (inr (n + Z.of_nat (length (concat cs)))%Z, st') /\
    st_fs st' = <[dest := File (c0 ++ concat cs)]> (st_fs st) /\
    st_temp_dir st' = st_temp_dir st.
Proof.
  revert n st c0. induction cs as [| chunk rest IH]; intros n st c0 F Wr.
  - exists st. simpl. rewrite Z.add_0_r, app_nil_r.
    split; [reflexivity |]. split; [symmetry; apply insert_id, F | reflexivity].
  - destruct chunk as [| b chunk]; [simpl; apply IH; assumption |].
    cbn [write_error] in Wr.
    destruct (w_write W dest n) as [msg |] eqn:Wn; [discriminate |].
    rewrite (write_chunks_step dest total b chunk rest n st c0 F Wn).
    set (ch := b :: chunk) in *. set (n1 := (n + Z.of_nat (length ch))%Z) in *.
    match goal with
    | |- context [write_chunks W dest total rest n1 ?s] => set (st1 := s)
    end.
    destruct (IH n1 st1 (c0 ++ ch)) as (st' & R & Fs & T).
    { apply lookup_insert_eq. }
    { exact Wr. }
    exists st'. split; [| split].
    + rewrite R. apply (f_equal (fun z : Z => (inr z, st'))). subst n1.
      change (concat (ch :: rest)) with (ch ++ concat rest).
      rewrite length_app. lia.
    + rewrite Fs. subst st1. cbn [st_fs]. rewrite insert_insert_eq.
      change (concat (ch :: rest)) with (ch ++ concat rest).
      rewrite <- app_assoc. reflexivity.
    + rewrite T. reflexivity.
Qed.

(** The loop raises the error of the first write that fails. *)
Lemma write_chunks_fails dest total cs n st msg :
  write_error W dest cs n = Some msg ->
  exists st', write_chunks W dest total cs n st = (inl (Exn OSError msg), st').
Proof.
  revert n st. induction cs as [| chunk rest IH]; intros n st Wr; [discriminate |].
  destruct chunk as [| b chunk]; [simpl; apply IH, Wr |].
  cbn [write_error] in Wr. cbn [write_chunks]. unfold write_file, append_file.
  destruct (w_write W dest n) as [msg' |].
  - injection Wr as ->. eexists. reflexivity.
  - msimp.
    destruct (st_fs st !! dest) as [[| c] |]; msimp;
      destruct (andb _ _); msimp; apply IH, Wr.
Qed.

(** The lines the loop prints are progress lines at a whole number of
    mebibytes of a known total. *)
Lemma write_chunks_progress dest total cs n :
  sat W progress_ok (write_chunks W dest total cs n).
Proof.
  revert n. induction cs as [| chunk rest IH]; intros n; cbn [write_chunks].
  - apply sat_ret.
  - destruct chunk as [| b chunk]; [apply IH |].
    apply sat_bind.
    + unfold write_file, append_file. destruct (w_write W dest n).
      * apply sat_raise.
      * apply sat_bind; [apply sat_get_fs | intros fs].
        destruct (fs !! dest) as [[| c] |]; apply sat_set_fs.
    + intros _. apply sat_bind; [| intros _; apply IH].
      destruct (andb _ _) eqn:Pr; [| apply sat_ret].
      apply sat_print. simpl. apply andb_prop in Pr as [P1 P2].
      split; [apply Z.ltb_lt, P1 | apply Z.eqb_eq, P2].
Qed.

Lemma download_file_progress url dest :
  sat W progress_ok (download_file W url dest).
Proof.
  unfold download_file, http_get, open_write.
  apply sat_bind; [apply sat_print; exact I | intros _].
  apply sat_try_except; [| intros e; apply sat_raise].
  apply sat_bind.
  { apply sat_bind; [apply sat_emit; exact I | intros _].
    destruct (w_http_get W url); [apply sat_raise | apply sat_ret]. }
  intros resp. apply sat_bind.
  { destruct (w_open W dest); [apply sat_raise |].
    apply sat_bind; [apply sat_get_fs | intros fs; apply sat_set_fs]. }
  intros _. apply sat_bind; [apply write_chunks_progress | intros n].
  apply sat_bind.
  { destruct (stream_error resp); [apply sat_raise | apply sat_ret]. }
  intros _. apply sat_bind; [apply sat_print; exact I | intros _; apply sat_ret].
Qed.

(** [download_file] from the loop on, once the file is open. *)
Lemma download_file_opened url dest st resp :
  w_http_get W url = inr resp -> w_open W dest = None ->
  let st0 := State (<[dest := File []]> (st_fs st))
               ((st_trace st ++ [Print (LogDownloadFetch url)])
                  ++ [CallHttpGet url 300])
               (st_temp_dir st) in
  download_file W url dest st =
    match write_chunks W dest (total_size resp) (chunks resp) 0 st0 with
    | (inl e, st1) =>
        (inl (Exn PlainException ("Download failed: " +:+ exn_msg e)), st1)
    | (inr n, st1) =>
        match stream_error resp with
        | Some msg =>
            (inl (Exn PlainException ("Download failed: " +:+ msg)), st1)
        | None => (inr dest, pushed (Print (LogDownloadComplete n)) st1)
        end
    end.
Proof.
  intros G O st0. unfold download_file, http_get, open_write.
  msimp. rewrite G, O. msimp. fold st0.
  destruct (write_chunks W dest (total_size resp) (chunks resp) 0 st0)
    as [[e | n] st1]; [reflexivity |].
  destruct (stream_error resp); reflexivity.
Qed.

(** How [download_file] ends. *)
Lemma download_file_result url dest st :
  (download_file W url dest st).1 =
    match download_error W url dest with
    | Some msg => inl (Exn PlainException ("Download failed: " +:+ msg))
    | None => inr dest
    end.
Proof.
  unfold download_error.
  destruct (w_http_get W url) as [msg | resp] eqn:G.
  { unfold download_file, http_get. msimp. rewrite G. msimp. reflexivity. }
  destruct (w_open W dest) as [msg |] eqn:O.
  { unfold download_file, http_get, open_write. msimp. rewrite G, O. msimp.
    reflexivity. }
  rewrite (download_file_opened url dest st resp G O).
  destruct (write_error W dest (chunks resp) 0) as [msg |] eqn:Wr.
  - edestruct write_chunks_fails as [st1 ->]; [exact Wr |]. reflexivity.
  - edestruct write_chunks_run as (st1 & -> & _); [apply lookup_insert_eq | exact Wr |].
    destruct (stream_error resp); reflexivity.
Qed.



(** X2.  When the request is refused, or the file cannot be opened,
    the disk is untouched.  When the file is opened and no write fails,
    the destination holds exactly the chunks received, in order,
    whatever was there before, also when the stream breaks (the file is
    then the part received); and on success the byte count logged is
    the length of the file. *)
Theorem download_file_content url dest st :
  (forall msg,
     w_http_get W url = inl msg ->
     st_fs (download_file W url dest st).2 = st_fs st) /\
  (forall msg,
     w_open W dest = Some msg ->
     st_fs (download_file W url dest st).2 = st_fs st) /\
  (forall resp,
     w_http_get W url = inr resp -> w_open W dest = None ->
     write_error W dest (chunks resp) 0 = None ->
     st_fs (download_file W url dest st).2 =
       <[dest := File (concat (chunks resp))]> (st_fs st) /\
     (stream_error resp = None ->
      In (Print (LogDownloadComplete (Z.of_nat (length (concat (chunks resp))))))
         (st_trace (download_file W url dest st).2))).
Proof.
  assert (R : forall msg,
            w_http_get W url = inl msg ->
            st_fs (download_file W url dest st).2 = st_fs st).
  { intros msg G. unfold download_file, http_get. msimp. rewrite G. msimp.
    reflexivity. }
  split; [exact R |]. split.
  - intros msg O. destruct (w_http_get W url) as [m | resp] eqn:G; [eapply R; eauto |].
    unfold download_file, http_get, open_write. msimp. rewrite G, O. msimp.
    reflexivity.
  - intros resp G O Wr. rewrite (download_file_opened url dest st resp G O).
    edestruct write_chunks_run as (st1 & -> & Fs & _);
      [apply lookup_insert_eq | exact Wr |].
    cbn [st_fs app] in Fs. rewrite insert_insert_eq in Fs.
    split.
    + destruct (stream_error resp); exact Fs.
    + intros ->. simpl. apply in_or_app. right. left. reflexivity.
Qed.

(** X3.  A progress line is printed only when the server announced a
    positive size, and only at the moments the running byte count is a
    whole number of mebibytes. *)
Theorem download_progress_lines url dest st :
  extends W progress_ok st (download_file W url dest st).2.
Proof.
  destruct (download_file W url dest st) as [r st'] eqn:E.
  eapply download_file_progress, E.
Qed.

End Download.

(** ** Jobs that end before the dispatch *)

Section EarlyFailures.
Context `{PyBuiltins} (W : world).

(** The [finally] block in a state whose [temp_dir] is unset or is the
    directory [mkdtemp] made. *)
Lemma cleanup_extends (P : effect -> Prop) st r st' :
  (forall l, P (Print l)) ->
  (forall name, w_mkdtemp W = inr name -> P (CallRmtree (workdir W name))) ->
  (st_temp_dir st = None \/
   exists name, w_mkdtemp W = inr name /\ st_temp_dir st = Some (workdir W name)) ->
  cleanup W st = (r, st') -> extends W P st st'.
Proof.
  intros Pp Pr T. unfold cleanup, rmtree. msimp.
  destruct T as [T | (name & M & T)]; rewrite T.
  - intros E. injection E as <- <-. apply extends_refl.
  - destruct (_ && _).
    + msimp. destruct (w_rmtree W (workdir W name)); msimp; intros E;
        injection E as <- <-; (split; [| now left]); eexists;
        (split; [simpl; rewrite <- app_assoc; reflexivity |]);
        repeat constructor; auto.
    + intros E. injection E as <- <-. apply extends_refl.
Qed.

(** The end of a job whose [try] block raised [e] in the state [st1]. *)
Lemma handler_failed (P : effect -> Prop) ev st e st1 :
  (forall l, P (Print l)) ->
  (forall name, w_mkdtemp W = inr name -> P (CallRmtree (workdir W name))) ->
  handler_try W ev (entered ev st) = (inl e, st1) ->
  extends W P (entered ev st) st1 ->
  st_temp_dir st1 = None \/
    (exists name, w_mkdtemp W = inr name /\ st_temp_dir st1 = Some (workdir W name)) ->
  exists st',
    handler W ev st = (inr (failure_response ev (exn_msg e)), st') /\
    extends W P (entered ev st) st' /\
    cleanup W (pushed (Print (LogJobFailed (exn_msg e))) st1) = (inr tt, st').
Proof.
  intros Pp Pr T X D.
  destruct (handler_returns W ev st) as (r & st' & E). pose proof E as E0.
  apply handler_response in E. rewrite T in E. destruct E as [R C].
  injection R as ->. exists st'. split; [exact E0 |]. split; [| exact C].
  eapply extends_trans; [exact X |].
  eapply extends_trans; [| eapply cleanup_extends; [exact Pp | exact Pr | | exact C]].
  - split; [| now left]. eexists. split; [reflexivity |]. repeat constructor. apply Pp.
  - exact D.
Qed.

(** X4.  When [mkdtemp] fails the job fails with its message; nothing
    else has happened: no download, no child process, no call to
    [shutil.rmtree], and the disk is as it was. *)
Theorem mkdtemp_failure ev st msg :
  truthy (dict_get (event_input ev) "video_url" JNull) = true ->
  w_mkdtemp W = inl msg ->
  handler W ev st =
    (inr (failure_response ev msg),
     State (st_fs st)
           (st_trace st ++ [Print (LogReceived (event_input ev));
                            CallMkdtemp;
                            Print (LogJobFailed msg)])
           None).
Proof.
  intros T M. rewrite handler_unfold.
  unfold handler_try, prepare, mkdtemp, entered, on_failure, cleanup.
  msimp. rewrite T, M. msimp. rewrite <- !app_assoc. reflexivity.
Qed.

(** X5.  A [video_url] that is there but is not a string fails the job
    with the [AttributeError] of [split], after the workspace was made:
    nothing is fetched, no child process is started, and the removal of
    the workspace is attempted. *)
Theorem url_must_be_a_string ev st name :
  let v := dict_get (event_input ev) "video_url" JNull in
  truthy v = true -> (forall s, v <> JStr s) ->
  w_mkdtemp W = inr name ->
  exists st',
    handler W ev st =
      (inr (failure_response ev
              ("'" +:+ type_name v +:+ "' object has no attribute 'split'")),
       st') /\
    extends W local_only (entered ev st) st' /\
    In (CallRmtree (workdir W name)) (st_trace st').
Proof.
  intros v T N M.
  assert (R : handler_try W ev (entered ev st) =
              (inl (Exn AttributeError
                      ("'" +:+ type_name v +:+ "' object has no attribute 'split'")),
               in_workspace W name (entered ev st))).
  { unfold handler_try. rewrite bind_run, (prepare_in_workspace W ev _ name T M).
    fold v. unfold url_string. destruct v; try reflexivity.
    exfalso. eapply N. reflexivity. }
  destruct (handler_failed local_only ev st _ _ (fun _ => I) (fun _ _ => I) R)
    as (st' & E & X & C).
  - apply (in_workspace_extends W); [exact I | intros; exact I | exact M].
  - right. eauto.
  - exists st'. split; [exact E |]. split; [exact X |].
    revert C. unfold cleanup, rmtree, path_exists, in_workspace, pushed. msimp.
    pose proof (workdir_nonempty W name) as Hd.
    apply String.eqb_neq in Hd. rewrite Hd. msimp.
    rewrite lookup_insert_eq. rewrite bool_decide_eq_true_2 by eauto. msimp.
    destruct (w_rmtree W (workdir W name)); msimp; intros C; injection C as <-;
      simpl; rewrite !in_app_iff; simpl; tauto.
Qed.

(** X6.  When the download fails (the request is refused, the file
    cannot be opened or written, or the stream breaks) the job fails
    with ["Download failed: "] and the cause, and no child process is
    started: neither the probe nor the transcoder runs. *)
Theorem download_failure_fails_job ev st url name msg :
  dict_get (event_input ev) "video_url" JNull = JStr url -> url <> "" ->
  w_mkdtemp W = inr name ->
  download_error W url (input_path_of W name url) = Some msg ->
  exists st',
    handler W ev st =
      (inr (failure_response ev ("Download failed: " +:+ msg)), st') /\
    extends W no_process (entered ev st) st'.
Proof.
  intros U Ne M Derr.
  assert (T : truthy (dict_get (event_input ev) "video_url" JNull) = true).
  { rewrite U. simpl. apply negb_true_iff, String.eqb_neq, Ne. }
  set (st0 := in_workspace W name (entered ev st)).
  set (inp := input_path_of W name url).
  destruct (download_file W url inp st0) as [r1 st1] eqn:Dl.
  pose proof (download_file_result W url inp st0) as O.
  rewrite Dl in O. unfold inp in O. rewrite Derr in O. simpl in O. subst r1.
  assert (R : handler_try W ev (entered ev st) =
              (inl (Exn PlainException ("Download failed: " +:+ msg)), st1)).
  { unfold handler_try. rewrite bind_run, (prepare_in_workspace W ev _ name T M).
    rewrite U. unfold url_string. msimp. fold st0 inp. rewrite Dl. reflexivity. }
  assert (X1 : extends W no_process st0 st1).
  { eapply (sat_download_file W no_process); [intros; exact I | exact I | exact Dl]. }
  assert (X0 : extends W no_process (entered ev st) st0).
  { apply (in_workspace_extends W); [exact I | intros; exact I | exact M]. }
  destruct (handler_failed no_process ev st _ _ (fun _ => I) (fun _ _ => I) R)
    as (st' & E & X & _).
  - eapply extends_trans; eassumption.
  - destruct (extends_trans W _ _ _ _ X0 X1) as [_ [D | D]]; [left; exact D | right; exact D].
  - exists st'. split; [exact E | exact X].
Qed.

End EarlyFailures.

(** ** Thumbnail jobs *)

Section ThumbnailJobs.
Context `{PyBuiltins} (W : world).

Lemma sat_thumbnail_job P job t i :
  (forall l, P (Print l)) ->
  (forall i o time,
      P (CallRun (ffmpeg_thumbnail_cmd i o time) (Some 30%Z) false)) ->
  sat W P (thumbnail_job W job t i).
Proof.
  intros Pp Pc. unfold thumbnail_job, generate_thumbnail, run_thumbnail_command,
    subprocess_run, getsize, read_file.
  repeat first
    [ apply sat_ret | apply sat_raise | apply sat_lift | apply sat_get_fs
    | apply sat_set_fs
    | apply sat_print; apply Pp
    | apply sat_emit; apply Pc
    | apply sat_bind | apply sat_if | apply sat_try_except
    | progress intros
    | match goal with
      | |- sat _ _ (match ?x with _ => _ end) => destruct x
      end ].
Qed.

Lemma is_thumbnail_eq_str ev :
  is_thumbnail ev ->
  eq_str (dict_get (event_input ev) "operation" (JStr "extract_clip"))
         "generate_thumbnail" = true.
Proof. unfold is_thumbnail, dict_get. intros ->. reflexivity. Qed.

Lemma dispatch_thumbnail ev t i D :
  is_thumbnail ev -> dispatch W ev t i D = thumbnail_job W (event_input ev) t i.
Proof.
  intros N. unfold dispatch. rewrite (is_thumbnail_eq_str ev N). reflexivity.
Qed.

Lemma thumbnail_job_response job t i st r st' :
  thumbnail_job W job t i st = (inr r, st') ->
  r !! "success" = Some (JBool true) /\
  r !! "operation" = Some (JStr "generate_thumbnail") /\
  r !! "format" = Some (JStr "jpg") /\
  is_Some (r !! "thumbnail_data") /\
  r !! "clip_data" = None /\
  r !! "error" = None.
Proof.
  unfold thumbnail_job. intros E. minv E.
  injection E as <- <-. repeat split. eexists. reflexivity.
Qed.

(** The command is started before anything else happens. *)
Lemma run_thumbnail_command_starts cmd o st r st' :
  run_thumbnail_command W cmd o st = (r, st') ->
  exists rest, st_trace st' = st_trace st ++ CallRun cmd (Some 30%Z) false :: rest.
Proof.
  intros E.
  assert (G : extends W anything (pushed (CallRun cmd (Some 30%Z) false) st) st').
  { revert E. unfold run_thumbnail_command, subprocess_run.
    match goal with
    | |- try_except (x ← (emit ?c;; ?k); @?k2 x) ?h st = _ -> _ =>
        change (try_except (x ← k; k2 x) h (pushed c st) = (r, st') ->
                extends W anything (pushed c st) st');
        assert (S : sat W anything (try_except (x ← k; k2 x) h))
    end.
    { unfold getsize. sat_any. }
    intros E. eapply S, E. }
  apply grows_trace in G as [evs G]. exists evs.
  rewrite G. unfold pushed. simpl. rewrite <- app_assoc. reflexivity.
Qed.

(** The thumbnail branch logs the time it was given and starts the
    command at that time. *)
Lemma thumbnail_job_starts job t i st time :
  py_float (dict_get job "time" (JInt 0)) = inr time ->
  let o := path_join t "thumbnail.jpg" in
  exists r st' rest,
    thumbnail_job W job t i st = (r, st') /\
    st_trace st' =
      st_trace st ++ Print (LogThumbnailAt time)
                  :: CallRun (ffmpeg_thumbnail_cmd i o time) (Some 30%Z) false
                  :: rest.
Proof.
  intros Et o.
  destruct (thumbnail_job W job t i st) as [r st'] eqn:E.
  exists r, st'. unfold thumbnail_job in E. rewrite Et in E.
  fold o in E. unfold generate_thumbnail in E. msimp in E.
  destruct (run_thumbnail_command W (ffmpeg_thumbnail_cmd i o time) o
              (State (st_fs st) (st_trace st ++ [Print (LogThumbnailAt time)])
                     (st_temp_dir st))) as [[e | p] st1] eqn:R;
    apply run_thumbnail_command_starts in R as [rest R]; simpl in R.
  - injection E as <- <-. exists rest. split; [reflexivity |].
    rewrite R, <- app_assoc. reflexivity.
  - assert (G : extends W anything st1 st').
    { revert E. unfold read_file. msimp.
      destruct (st_fs st1 !! o) as [[| c] |]; intros E; injection E as <- <-;
        apply extends_refl. }
    apply grows_trace in G as [evs G]. exists (rest ++ evs).
    split; [reflexivity |]. rewrite G, R, <- !app_assoc. reflexivity.
Qed.

(** X7.  A request with [operation = "generate_thumbnail"] runs the
    thumbnail branch.  The only child processes are the probe and the
    thumbnail command: the clip transcoder never runs.  When the [try]
    block completes, the response is the one of the thumbnail branch
    and says [success: true], [operation: "generate_thumbnail"],
    [format: "jpg"], with [thumbnail_data] and no [clip_data]; when it
    raises, the response is the failure response.  And the branch is
    reached: once the video is downloaded and probed and [time] is a
    number, the thumbnail command is started at that time. *)
Theorem thumbnail_requests ev st :
  is_thumbnail ev ->
  exists r st',
    handler W ev st = (inr r, st') /\
    extends W thumbnail_pipeline (entered ev st) st' /\
    match handler_try W ev (entered ev st) with
    | (inr d, _) =>
        r = d /\
        d !! "success" = Some (JBool true) /\
        d !! "operation" = Some (JStr "generate_thumbnail") /\
        d !! "format" = Some (JStr "jpg") /\
        is_Some (d !! "thumbnail_data") /\
        d !! "clip_data" = None
    | (inl e, _) => r = failure_response ev (exn_msg e)
    end /\
    (forall t i D st1 time,
       prepare W ev (entered ev st) = (inr (t, i, D), st1) ->
       py_float (dict_get (event_input ev) "time" (JInt 0)) = inr time ->
       let o := path_join t "thumbnail.jpg" in
       exists rest,
         st_trace st' =
           st_trace st1
             ++ Print (LogThumbnailAt time)
             :: CallRun (ffmpeg_thumbnail_cmd i o time) (Some 30%Z) false
             :: rest).
Proof.
  intros N.
  destruct (handler_returns W ev st) as (r & st' & E).
  exists r, st'. split; [exact E |]. split; [| split].
  - eapply sat_handler; [intros; exact I | intros; exact I | | exact E].
    unfold handler_try. apply sat_bind.
    + apply sat_prepare; intros; try exact I. left. eauto.
    + intros [[t i] D]. rewrite (dispatch_thumbnail ev t i D N).
      apply sat_bind; [| intros; apply sat_bind; [apply sat_print | intros; apply sat_ret]; exact I].
      apply sat_thumbnail_job; [intros; exact I |].
      intros. right. eauto.
  - pose proof (handler_response W ev st _ _ E) as R.
    destruct (handler_try W ev (entered ev st)) as [[e | d] st1] eqn:Et.
    + destruct R as [R _]. injection R as ->. reflexivity.
    + destruct R as [R _]. injection R as ->. split; [reflexivity |].
      unfold handler_try in Et. minv Et.
      destruct a as [[t i] D]. minv Et. injection Et as <- <-.
      match goal with
      | Ed : dispatch W ev t i D _ = _ |- _ =>
          rewrite (dispatch_thumbnail ev t i D N) in Ed;
          apply thumbnail_job_response in Ed; tauto
      end.
  - intros t i D st1 time P Et o.
    destruct (handler_dispatch_run W ev st t i D st1 _ st' P E)
      as (rc & st2 & evs & C & T & _).
    rewrite (dispatch_thumbnail ev t i D N) in C.
    destruct (thumbnail_job_starts (event_input ev) t i st1 time Et)
      as (rc' & st2' & rest & C' & T').
    rewrite C in C'. injection C' as <- <-.
    exists (rest ++ evs). rewrite T, T', <- app_assoc. reflexivity.
Qed.

(** X8.  The thumbnail time is not validated: whatever number [time]
    is, negative or beyond the video, and whatever [start_time] and
    [duration] the request carries, the thumbnail command is started
    at that time, with a bound of 30 seconds. *)
Theorem thumbnail_time_is_not_checked job t i st time :
  py_float (dict_get job "time" (JInt 0)) = inr time ->
  let o := path_join t "thumbnail.jpg" in
  exists r st' rest,
    thumbnail_job W job t i st = (r, st') /\
    st_trace st' =
      st_trace st ++ Print (LogThumbnailAt time)
                  :: CallRun (ffmpeg_thumbnail_cmd i o time) (Some 30%Z) false
                  :: rest.
Proof. apply thumbnail_job_starts. Qed.

(** X9.  Once the thumbnail command is started and exits,
    [generate_thumbnail] ends as follows: more than 30 seconds of
    running time, a non-zero exit code and a missing output file each
    give an error that starts with ["Thumbnail error: "]; otherwise the
    output path is returned, whatever the size of the file. *)
Theorem thumbnail_outcomes i o t st elapsed rc out err :
  let cmd := ffmpeg_thumbnail_cmd i o t in
  w_spawn W cmd = Exits elapsed rc out err ->
  let disk := w_proc_effect W cmd (st_fs st) in
  let failed msg : exn + string := inl (Exn PlainException msg) in
  (generate_thumbnail W i o t st).1 =
    (if (30 * 1000 <? elapsed)%Z
     then failed ("Thumbnail error: Command '" +:+ cmd_repr cmd
                    +:+ "' timed out after " +:+ py_repr (JInt 30) +:+ " seconds")
     else if negb (rc =? 0)%Z
     then failed ("Thumbnail error: Thumbnail generation failed: " +:+ err)
     else match disk !! o with
          | None => failed "Thumbnail error: Thumbnail file was not created"
          | Some _ => inr o
          end).
Proof.
  intros cmd S disk failed.
  unfold generate_thumbnail, run_thumbnail_command, subprocess_run, getsize.
  fold cmd. msimp. rewrite S. msimp.
  destruct (30 * 1000 <? elapsed)%Z; msimp; [reflexivity |].
  destruct (rc =? 0)%Z; msimp; [| reflexivity].
  unfold path_exists. subst disk.
  destruct (w_proc_effect W cmd (st_fs st) !! o) as [[| c] |] eqn:Dk;
    msimp;
    rewrite ?bool_decide_eq_true_2 by eauto;
    rewrite ?bool_decide_eq_false_2 by (intros [? ?]; discriminate);
    msimp; rewrite ?Dk; msimp; reflexivity.
Qed.

End ThumbnailJobs.

(** ** Clip jobs *)

Section ClipJobs.
Context `{PyBuiltins} (W : world).

(** X10.  A clip request whose [start_time] or [duration] is not
    something [float] accepts (a JSON null, list or object, a string
    that is no number, an integer too large) fails, and the transcoder
    is never started; once the download and the probe have run, the
    error is the message of the exception [float] raised, for
    [start_time] first. *)
Theorem unconvertible_times_fail ev st e :
  not_thumbnail ev -> conversion_error (event_input ev) = Some e ->
  exists msg st',
    handler W ev st = (inr (failure_response ev msg), st') /\
    extends W probe_only (entered ev st) st' /\
    forall t i D st1,
      prepare W ev (entered ev st) = (inr (t, i, D), st1) ->
      msg = exn_msg e.
Proof.
  intros N B.
  destruct (handler_returns W ev st) as (r & st' & E). pose proof E as E0.
  assert (X : extends W probe_only (entered ev st) st').
  { eapply sat_handler; [intros; exact I | intros; exact I | | exact E].
    unfold handler_try. apply sat_bind.
    - apply sat_prepare; intros; try exact I. simpl. eauto.
    - intros [[t i] D]. apply sat_still. intros st0.
      rewrite (dispatch_not_thumbnail W ev t i D N).
      exists (inl e). rewrite bind_run.
      rewrite (clip_job_unconvertible W _ t i D st0 e B). reflexivity. }
  destruct (prepare W ev (entered ev st)) as [[e' | [[t i] D]] st1] eqn:P.
  - apply handler_response in E. unfold handler_try in E.
    rewrite (bind_inl _ _ _ _ _ P) in E. destruct E as [R _].
    injection R as ->.
    exists (exn_msg e'), st'. split; [exact E0 |]. split; [exact X |].
    intros; discriminate.
  - destruct (handler_clip_run W ev st t i D st1 _ st' N P E)
      as (rc & st2 & evs & C & T & R).
    rewrite (clip_job_unconvertible W _ t i D st1 e B) in C.
    injection C as <- <-. injection R as ->.
    exists (exn_msg e), st'. split; [exact E0 |]. split; [exact X |].
    intros; reflexivity.
Qed.

(** X11.  When the transcoder cannot be started (the tool is missing),
    [extract_clip] raises a plain [Exception] that says ["FFmpeg
    error: "] and the cause; the disk is untouched. *)
Theorem transcoder_missing i o s d q st msg :
  let settings := default medium_preset (quality_presets !! q) in
  let cmd := ffmpeg_clip_cmd i o s d settings in
  w_spawn W cmd = SpawnFails msg ->
  extract_clip W i o s d (JStr q) st =
    (inl (Exn PlainException ("FFmpeg error: " +:+ msg)),
     State (st_fs st)
           (st_trace st ++ [Print (LogExtracting s d (JStr q));
                            Print (LogCommand (str_join " " cmd));
                            CallRun cmd (Some 600%Z) false])
           (st_temp_dir st)).
Proof.
  intros settings cmd S.
  unfold extract_clip, run_clip_command, subprocess_run, lookup_preset.
  fold settings. msimp. fold cmd. rewrite S. msimp.
  rewrite <- !app_assoc. reflexivity.
Qed.

(** X12.  A quality that is a JSON list or object cannot be looked up:
    [extract_clip] raises [TypeError] outside its [try] statement, so
    the message is not wrapped in ["FFmpeg error: "], and no command is
    started. *)
Theorem container_quality_raises i o s d q st :
  match q with JList _ | JDict _ => True | _ => False end ->
  extract_clip W i o s d q st =
    (inl (Exn TypeError ("unhashable type: '" +:+ type_name q +:+ "'")),
     pushed (Print (LogExtracting s d q)) st).
Proof.
  intros Q. unfold extract_clip, pushed.
  destruct q; try contradiction; reflexivity.
Qed.

(** What [run_clip_command] has checked when it returns. *)
Lemma run_clip_command_returns cmd o st p st' :
  run_clip_command W cmd o st = (inr p, st') ->
  exists node, st_fs st' !! o = Some node /\
    match node with
    | File c => c <> []
    | Dir => True
    end.
Proof.
  unfold run_clip_command, subprocess_run, getsize, path_exists. msimp.
  destruct (w_spawn W cmd) as [msg | elapsed rc out err]; msimp; [discriminate |].
  destruct (600 * 1000 <? elapsed)%Z; msimp; [discriminate |].
  destruct (rc =? 0)%Z; msimp; [| discriminate].
  destruct (w_proc_effect W cmd (st_fs st) !! o) as [[| [| b c]] |] eqn:Dk;
    rewrite ?bool_decide_eq_true_2 by eauto;
    rewrite ?bool_decide_eq_false_2 by (intros [? ?]; discriminate);
    msimp; rewrite ?Dk; msimp; try discriminate.
  - destruct (w_dir_size W =? 0)%Z; msimp; [discriminate |].
    intros E. injection E as _ <-. simpl. exists Dir. split; [exact Dk | exact I].
  - intros E. injection E as _ <-. simpl. eexists. split; [exact Dk | discriminate].
Qed.

Lemma clip_job_payload job t i D st r st' :
  clip_job W job t i D st = (inr r, st') ->
  exists data,
    data <> [] /\
    r !! "success" = Some (JBool true) /\
    r !! "error" = None /\
    r !! "thumbnail_data" = None /\
    r !! "clip_data" = Some (JStr (b64encode data)) /\
    r !! "file_size" = Some (JInt (Z.of_nat (length data))).
Proof.
  unfold clip_job. intros E. minv E.
  match goal with
  | X : extract_clip _ _ _ _ _ _ _ = _, R : read_file _ _ = _ |- _ =>
      unfold extract_clip in X; minv X;
      apply run_clip_command_returns in X as (node & L & Hn);
      unfold read_file in R; msimp in R; rewrite L in R;
      destruct node as [| c]; [discriminate |];
      injection R as <- <-
  end.
  injection E as <- <-. exists c. repeat split. exact Hn.
Qed.

(** X13.  A successful clip response never carries an empty clip: its
    [clip_data] is the encoding of a file that is not empty, and
    [file_size] is the length of that file. *)
Theorem clip_response_is_not_empty ev st r st' :
  not_thumbnail ev ->
  handler W ev st = (inr r, st') ->
  r !! "success" = Some (JBool true) ->
  exists data,
    data <> [] /\
    r !! "clip_data" = Some (JStr (b64encode data)) /\
    r !! "file_size" = Some (JInt (Z.of_nat (length data))).
Proof.
  intros N E S. apply handler_response in E.
  destruct (handler_try W ev (entered ev st)) as [[e | d] st1] eqn:Et.
  - destruct E as [E _]. injection E as ->.
    destruct (failure_response_fields ev (exn_msg e)) as (F & _).
    rewrite F in S. discriminate.
  - destruct E as [E _]. injection E as ->.
    unfold handler_try in Et. minv Et.
    destruct a as [[t i] D]. minv Et. injection Et as <- <-.
    match goal with
    | Ed : dispatch W ev t i D _ = _ |- _ =>
        rewrite (dispatch_not_thumbnail W ev t i D N) in Ed;
        apply clip_job_payload in Ed as (data & Hd & _ & _ & _ & C & F)
    end.
    eauto.
Qed.

End ClipJobs.

(** ** Clips that are not clamped *)

Section Unclamped.
Context `{PyBuiltins} (W : world).

(** X14.  A clip that ends inside the video, and any clip when the
    duration of the video is not known to be positive, is cut with the
    requested duration: [extract_clip] is called with [d] right after
    the probe, with no warning, and a success response reports [d]. *)
Theorem fitting_clip_is_not_clamped ev st t i D st1 s d :
  not_thumbnail ev ->
  prepare W ev (entered ev st) = (inr (t, i, D), st1) ->
  py_float (dict_get (event_input ev) "start_time" (JInt 0)) = inr s ->
  py_float (dict_get (event_input ev) "duration" (JInt 30)) = inr d ->
  (s <? 0)%float = false -> (d <=? 0)%float = false ->
  (0 <? D)%float = false \/ (D <? s + d)%float = false ->
  let q := dict_get (event_input ev) "quality" (JStr "medium") in
  exists r st' rest,
    handler W ev st = (inr r, st') /\
    st_trace st' = st_trace st1 ++ Print (LogExtracting s d q) :: rest /\
    (r !! "success" = Some (JBool true) ->
     r !! "duration" = Some (JFloat d) /\
     r !! "start_time" = Some (JFloat s) /\
     r !! "video_duration" = Some (JFloat D)).
Proof.
  intros N P Es Ed Vs Vd Fit.
  apply (unclamped_run W ev st t i D st1 s d N P Es Ed Vs Vd).
  unfold clamps. destruct Fit as [-> | ->]; [reflexivity | apply andb_false_r].
Qed.

Lemma is_nan_spec x : is_nan x = true -> Prim2SF x = S754_nan.
Proof.
  unfold is_nan. rewrite FloatAxioms.eqb_spec. intros E. apply negb_true_iff in E.
  destruct (Prim2SF x) as [s | s | | s m e]; try reflexivity; exfalso;
    revert E; unfold SFeqb, SFcompare.
  - discriminate.
  - destruct s; discriminate.
  - rewrite Z.compare_refl, Pos.compare_cont_refl. destruct s; discriminate.
Qed.

Lemma nan_is_not_less x y : is_nan x = true -> (x <? y)%float = false.
Proof.
  intros E. rewrite FloatAxioms.ltb_spec, (is_nan_spec x E). reflexivity.
Qed.

Lemma nan_is_not_leq x y : is_nan x = true -> (x <=? y)%float = false.
Proof.
  intros E. rewrite FloatAxioms.leb_spec, (is_nan_spec x E). reflexivity.
Qed.

Lemma nothing_is_less_than_nan x y : is_nan y = true -> (x <? y)%float = false.
Proof.
  intros E. rewrite FloatAxioms.ltb_spec, (is_nan_spec y E).
  destruct (Prim2SF x); reflexivity.
Qed.

Lemma sum_with_nan s d :
  is_nan s = true \/ is_nan d = true -> is_nan (s + d) = true.
Proof.
  intros E. unfold is_nan. rewrite FloatAxioms.eqb_spec, FloatAxioms.add_spec.
  assert (N : SF64add (Prim2SF s) (Prim2SF d) = S754_nan).
  { destruct E as [E | E]; rewrite (is_nan_spec _ E);
      [reflexivity | destruct (Prim2SF s); reflexivity]. }
  rewrite N. reflexivity.
Qed.

(** X15.  Validation lets NaN through: a [start_time] or a [duration]
    that is NaN is neither rejected (the comparisons of lines 253 and
    255 are false) nor clamped, and [extract_clip] is called with it. *)
Theorem nan_times_are_not_rejected ev st t i D st1 s d :
  not_thumbnail ev ->
  prepare W ev (entered ev st) = (inr (t, i, D), st1) ->
  py_float (dict_get (event_input ev) "start_time" (JInt 0)) = inr s ->
  py_float (dict_get (event_input ev) "duration" (JInt 30)) = inr d ->
  (is_nan s = true /\ (d <=? 0)%float = false) \/
  (is_nan d = true /\ (s <? 0)%float = false) ->
  let q := dict_get (event_input ev) "quality" (JStr "medium") in
  exists r st' rest,
    handler W ev st = (inr r, st') /\
    st_trace st' = st_trace st1 ++ Print (LogExtracting s d q) :: rest.
Proof.
  intros N P Es Ed Nan q.
  assert (V : (s <? 0)%float = false /\ (d <=? 0)%float = false /\
              clamps D s d = false).
  { assert (C : clamps D s d = false).
    { unfold clamps. rewrite (nothing_is_less_than_nan D (s + d)),
        andb_false_r; [reflexivity |].
      apply sum_with_nan. tauto. }
    destruct Nan as [[Ns Vd] | [Nd Vs]].
    - split; [apply nan_is_not_less, Ns | split; [exact Vd | exact C]].
    - split; [exact Vs | split; [apply nan_is_not_leq, Nd | exact C]]. }
  destruct V as (Vs & Vd & C).
  destruct (unclamped_run W ev st t i D st1 s d N P Es Ed Vs Vd C)
    as (r & st' & rest & E & T & _).
  eauto.
Qed.

End Unclamped.

(** ** The probe, the input file and the calls of a job *)

Section Calls.
Context `{PyBuiltins} (W : world).

(** X16.  When the probe exits with code 0 and prints a number,
    [get_video_duration] returns that number as it is (it is not
    checked to be positive or finite), however long the probe ran: the
    probe is started without a time bound. *)
Theorem probe_success p st elapsed out err D :
  w_spawn W (ffprobe_cmd p) = Exits elapsed 0 out err ->
  float_of_string (strip out) = Some D ->
  get_video_duration W p st =
    (inr D,
     State (w_proc_effect W (ffprobe_cmd p) (st_fs st))
           (st_trace st ++ [CallRun (ffprobe_cmd p) None true;
                            Print (LogInfoDuration D)])
           (st_temp_dir st)).
Proof.
  intros S F. unfold get_video_duration, subprocess_run, py_float. msimp.
  rewrite S. msimp. change (0 =? 0)%Z with true. msimp.
  rewrite F. msimp. rewrite <- app_assoc. reflexivity.
Qed.

Lemma contains_basename p : contains "/" (basename p) = false.
Proof.
  induction p as [| c r IH]; [reflexivity |].
  cbn [basename]. destruct (contains "/" (String c r)) eqn:C; [exact IH | exact C].
Qed.

Lemma basename_keeps_out c p :
  contains c p = false -> contains c (basename p) = false.
Proof.
  induction p as [| c' r IH]; [reflexivity |]. intros C.
  cbn [basename]. destruct (contains "/" (String c' r)); [| exact C].
  apply IH. simpl in C. apply orb_false_elim in C as [_ C]. exact C.
Qed.

Lemma last_dot_suffix s e :
  last_dot s = Some e ->
  (exists e', e = String "." e') /\
  forall c, contains c s = false -> contains c e = false.
Proof.
  revert e. induction s as [| c r IH]; intros e; [discriminate |].
  cbn [last_dot]. destruct (last_dot r) as [e0 |] eqn:L.
  - intros E. injection E as <-. destruct (IH e0 eq_refl) as [D K].
    split; [exact D |]. intros c' C. apply K.
    simpl in C. apply orb_false_elim in C as [_ C]. exact C.
  - destruct (Ascii.eqb c ".") eqn:Q; [| discriminate].
    intros E. injection E as <-. apply Ascii.eqb_eq in Q. subst c.
    split; [eauto | auto].
Qed.

Lemma split_head_no_sep sep s : contains sep (split_head sep s) = false.
Proof.
  induction s as [| c r IH]; [reflexivity |].
  cbn [split_head]. destruct (Ascii.eqb c sep) eqn:Q; [reflexivity |].
  simpl. rewrite Q. exact IH.
Qed.

(** The extension starts with a dot and has no ["/"] and no ["?"]. *)
Lemma input_ext_shape url :
  (exists e, input_ext url = String "." e) /\
  contains "/" (input_ext url) = false /\
  contains "?" (input_ext url) = false.
Proof.
  unfold input_ext, splitext_ext.
  set (b := basename (split_head "?" url)).
  assert (Bs : contains "/" b = false) by apply contains_basename.
  assert (Bq : contains "?" b = false)
    by apply basename_keeps_out, split_head_no_sep.
  assert (Df : (exists e, ".mp4" = String "." e) /\
               contains "/" ".mp4" = false /\ contains "?" ".mp4" = false)
    by (split; [eauto | split; reflexivity]).
  destruct (last_dot b) as [e |] eqn:L; [| exact Df].
  destruct (all_dots _ b); [exact Df |].
  destruct (last_dot_suffix b e L) as [[e' ->] K].
  split; [eauto |]. split; apply K; assumption.
Qed.

(** X17.  The video is downloaded to a file named [input] with an
    extension, directly in the workspace: the extension is taken from
    the URL without its query, starts with a dot (it is [.mp4] when the
    URL has none), and holds no ["/"] and no ["?"], whatever the URL. *)
Theorem input_file_name ev st t i D st' :
  prepare W ev st = (inr (t, i, D), st') ->
  exists name url,
    w_mkdtemp W = inr name /\ t = workdir W name /\
    dict_get (event_input ev) "video_url" JNull = JStr url /\
    i = path_join t ("input" +:+ input_ext url) /\
    (exists e, input_ext url = String "." e) /\
    contains "/" ("input" +:+ input_ext url) = false /\
    contains "?" ("input" +:+ input_ext url) = false.
Proof.
  intros P.
  destruct (truthy (dict_get (event_input ev) "video_url" JNull)) eqn:T;
    [| unfold prepare in P; msimp in P; rewrite T in P; discriminate].
  destruct (w_mkdtemp W) as [msg | name] eqn:M;
    [unfold prepare, mkdtemp in P; msimp in P; rewrite T, M in P; discriminate |].
  rewrite (prepare_in_workspace W ev st name T M) in P.
  destruct (dict_get (event_input ev) "video_url" JNull) as [| | | | url | |] eqn:U;
    try discriminate.
  unfold url_string in P. msimp in P.
  destruct (download_file W url _ _) as [[e | p] st1]; [discriminate |].
  destruct (get_video_duration W _ st1) as [[e | D'] st2]; [discriminate |].
  injection P as <- <- <- <-.
  exists name, url. destruct (input_ext_shape url) as (Dt & Sl & Qm).
  repeat split; try assumption; simpl; assumption.
Qed.

Lemma sat_dispatch_disciplined ev t i D :
  sat W (disciplined W) (dispatch W ev t i D).
Proof.
  unfold dispatch. destruct (eq_str _ _).
  - apply sat_thumbnail_job; [intros; exact I |].
    intros. simpl. right. right. eauto 10.
  - apply sat_clip_job; [intros; exact I |].
    intros. simpl. right. left. eauto 10.
Qed.

(** X18.  Whatever the request and however the job ends, the handler
    makes only these calls: one kind of GET request, bounded by 300
    seconds; the probe, unbounded; the clip command, bounded by 600
    seconds; the thumbnail command, bounded by 30 seconds; and
    [shutil.rmtree] on the directory that [mkdtemp] made, and on
    nothing else. *)
Theorem calls_of_a_job ev st :
  extends W (disciplined W) (entered ev st) (handler W ev st).2.
Proof.
  destruct (handler W ev st) as [r st'] eqn:E. revert E. cbn [snd].
  rewrite handler_unfold. unfold try_finally.
  destruct (try_except (handler_try W ev) (on_failure ev) (entered ev st))
    as [r0 st1] eqn:B.
  assert (X : extends W (disciplined W) (entered ev st) st1).
  { eapply (sat_try_except W (disciplined W)); [| | exact B].
    - unfold handler_try. apply sat_bind.
      + apply sat_prepare; intros; try exact I; simpl; [reflexivity |].
        left. eauto.
      + intros [[t i] D]. apply sat_bind; [apply sat_dispatch_disciplined |].
        intros d. apply sat_bind; [apply sat_print; exact I | intros; apply sat_ret].
    - intros e. unfold on_failure.
      apply sat_bind; [apply sat_print; exact I | intros; apply sat_ret]. }
  destruct (cleanup W st1) as [rc st2] eqn:C.
  assert (X2 : extends W (disciplined W) st1 st2).
  { eapply cleanup_extends; [intros; exact I | | | exact C].
    - intros name M. simpl. eauto.
    - destruct X as [_ [D | D]]; [left; rewrite D; reflexivity | right; exact D]. }
  destruct rc as [e | u]; intros E; injection E as _ <-;
    eapply extends_trans; eassumption.
Qed.

(** X19.  The handler always returns a response, and a response is of
    one of three shapes: a failure, [{success: false, error,
    operation}], with no payload; a clip, with [clip_data] and no
    [error]; or a thumbnail, with [thumbnail_data] and no [error].  No
    exception leaves the handler. *)
Theorem response_shapes ev st :
  exists r st',
    handler W ev st = (inr r, st') /\
    ((exists msg,
        r = failure_response ev msg /\
        r !! "success" = Some (JBool false) /\
        r !! "error" = Some (JStr msg) /\
        r !! "clip_data" = None /\ r !! "thumbnail_data" = None) \/
     (r !! "success" = Some (JBool true) /\ r !! "error" = None /\
      is_Some (r !! "clip_data") /\ r !! "thumbnail_data" = None) \/
     (r !! "success" = Some (JBool true) /\ r !! "error" = None /\
      is_Some (r !! "thumbnail_data") /\ r !! "clip_data" = None)).
Proof.
  destruct (handler_returns W ev st) as (r & st' & E). pose proof E as E0.
  exists r, st'. split; [exact E0 |].
  apply handler_response in E.
  destruct (handler_try W ev (entered ev st)) as [[e | d] st1] eqn:Et.
  - destruct E as [E _]. injection E as ->. left.
    exists (exn_msg e). repeat split.
  - destruct E as [E _]. injection E as ->. right.
    unfold handler_try in Et. minv Et.
    destruct a as [[t i] D]. minv Et. injection Et as <- <-.
    match goal with
    | Ed : dispatch W ev t i D _ = _ |- _ =>
        unfold dispatch in Ed; destruct (eq_str _ _) in Ed
    end.
    + right.
      match goal with
      | Ed : thumbnail_job _ _ _ _ _ = _ |- _ =>
          apply thumbnail_job_response in Ed as (S & _ & _ & T & C & Er)
      end.
      auto.
    + left.
      match goal with
      | Ed : clip_job _ _ _ _ _ _ = _ |- _ =>
          apply clip_job_payload in Ed as (data & _ & S & Er & T & C & _)
      end.
      repeat split; try assumption. rewrite C. eauto.
Qed.

End Calls.

(** * Runs on the sample worlds *)

Import Sample.

Lemma clip_50_30_not_thumbnail : not_thumbnail clip_50_30.
Proof. right. exists "extract_clip". split; [reflexivity | discriminate]. Qed.

Lemma clip_70_30_not_thumbnail : not_thumbnail clip_70_30.
Proof. left. reflexivity. Qed.

Lemma clip_negative_not_thumbnail : not_thumbnail clip_negative.
Proof. left. reflexivity. Qed.

Lemma transcode_not_thumbnail : not_thumbnail transcode_request.
Proof. right. exists "transcode". split; [reflexivity | discriminate]. Qed.

(** The scenario of the specification: 30 seconds asked from second 50
    of a 60 second video are cut to [60 - 50]. *)
Lemma clamped_duration_witness :
  exists r st' rest,
    handler good_world clip_50_30 start_state = (inr r, st') /\
    st_trace st' =
      st_trace (prepare good_world clip_50_30
                  (entered clip_50_30 start_state)).2
        ++ Print LogWarnClamp
        :: Print (LogExtracting 50 (60 - 50) (JStr "high")) :: rest /\
    (forall settings, lookup_preset (JStr "high") = inr settings ->
       let cmd := ffmpeg_clip_cmd sample_input
                    "/tmp/tmpk3x9w2ab/output.mp4" 50 (60 - 50) settings in
       exists rest',
         rest = Print (LogCommand (str_join " " cmd))
                  :: CallRun cmd (Some 600%Z) false :: rest') /\
    (r !! "success" = Some (JBool true) ->
     r !! "duration" = Some (JFloat (60 - 50)) /\
     r !! "start_time" = Some (JFloat 50) /\
     r !! "video_duration" = Some (JFloat 60)).
Proof.
  apply (clamped_duration good_world clip_50_30 start_state
           sample_dir sample_input 60%float _ 50%float 30%float
           clip_50_30_not_thumbnail);
    vm_compute; reflexivity.
Defined.

(** The response of that run. *)
Example clamped_response :
  Sample.response (handler good_world clip_50_30 start_state) =
  Some (map_to_list (list_to_map
    [("success", JBool true); ("operation", JStr "extract_clip");
     ("clip_data", JStr "ZnR5cA=="); ("file_size", JInt 4);
     ("format", JStr "mp4"); ("start_time", JFloat 50);
     ("duration", JFloat 10); ("quality", JStr "high");
     ("video_duration", JFloat 60)] : pydict)).
Proof. vm_compute. reflexivity. Qed.

(** A clip asked from second 70 of a 60 second video is cut with
    [60 - 70]. *)
Lemma clamp_below_zero_witness :
  (60 - 70 <=? 0)%float = true /\
  exists r st' rest,
    handler good_world clip_70_30 start_state = (inr r, st') /\
    st_trace st' =
      st_trace (prepare good_world clip_70_30
                  (entered clip_70_30 start_state)).2
        ++ Print LogWarnClamp
        :: Print (LogExtracting 70 (60 - 70) (JStr "medium")) :: rest /\
    (forall settings, lookup_preset (JStr "medium") = inr settings ->
       let cmd := ffmpeg_clip_cmd sample_input
                    "/tmp/tmpk3x9w2ab/output.mp4" 70 (60 - 70) settings in
       exists rest',
         rest = Print (LogCommand (str_join " " cmd))
                  :: CallRun cmd (Some 600%Z) false :: rest').
Proof.
  apply (clamp_below_zero good_world clip_70_30 start_state
           sample_dir sample_input 60%float _ 70%float 30%float
           clip_70_30_not_thumbnail);
    vm_compute; reflexivity.
Defined.

(** C4, as stated, fails on the scenario of the specification: the
    response to [{video_url: ""}] says [operation: "unknown"], not
    ["extract_clip"]. *)
Lemma missing_video_url_says_unknown :
  field (handler good_world empty_url start_state) "success" = Some (JBool false) /\
  field (handler good_world empty_url start_state) "error"
    = Some (JStr "video_url is required") /\
  field (handler good_world empty_url start_state) "operation"
    = Some (JStr "unknown") /\
  field (handler good_world empty_url start_state) "operation"
    <> Some (JStr "extract_clip").
Proof.
  repeat split; try (vm_compute; reflexivity).
  vm_compute. discriminate.
Qed.

Lemma missing_video_url_witness :
  handler good_world empty_url start_state =
    (inr (failure_response empty_url "video_url is required"),
     State (st_fs start_state)
           (st_trace start_state
              ++ [Print (LogReceived (event_input empty_url));
                  Print (LogJobFailed "video_url is required")])
           None) /\
  failure_response empty_url "video_url is required" !! "operation" =
    Some (dict_get (event_input empty_url) "operation" (JStr "unknown")).
Proof.
  apply (missing_video_url good_world empty_url start_state).
  vm_compute. reflexivity.
Defined.

Lemma other_operations_witness :
  exists r st',
    handler good_world transcode_request start_state = (inr r, st') /\
    handler_try good_world transcode_request (entered transcode_request start_state) =
      handler_try good_world (with_operation transcode_request (JStr "extract_clip"))
        (entered transcode_request start_state) /\
    extends good_world clip_pipeline (entered transcode_request start_state) st' /\
    match handler_try good_world transcode_request
            (entered transcode_request start_state) with
    | (inr d, _) =>
        r = d /\
        d !! "success" = Some (JBool true) /\
        d !! "operation" = Some (JStr "extract_clip") /\
        is_Some (d !! "clip_data")
    | (inl e, _) => r = failure_response transcode_request (exn_msg e)
    end /\
    (forall t i D st1 s d,
       prepare good_world transcode_request (entered transcode_request start_state)
         = (inr (t, i, D), st1) ->
       py_float (dict_get (event_input transcode_request) "start_time" (JInt 0))
         = inr s ->
       py_float (dict_get (event_input transcode_request) "duration" (JInt 30))
         = inr d ->
       (s <? 0)%float = false -> (d <=? 0)%float = false ->
       let q := dict_get (event_input transcode_request) "quality" (JStr "medium") in
       exists rest,
         st_trace st' =
           st_trace st1
             ++ (if clamps D s d then [Print LogWarnClamp] else [])
             ++ Print (LogExtracting s (if clamps D s d then (D - s)%float else d) q)
             :: rest).
Proof.
  exact (other_operations_extract_clip good_world transcode_request start_state
           transcode_not_thumbnail).
Defined.

(** The unknown operation is answered with a clip. *)
Example transcode_response :
  Sample.response (handler good_world transcode_request start_state) =
  Some (map_to_list (list_to_map
    [("success", JBool true); ("operation", JStr "extract_clip");
     ("clip_data", JStr "ZnR5cA=="); ("file_size", JInt 4);
     ("format", JStr "mp4"); ("start_time", JFloat 5);
     ("duration", JFloat 10); ("quality", JStr "medium");
     ("video_duration", JFloat 60)] : pydict)).
Proof. vm_compute. reflexivity. Qed.

Lemma clip_negative_bad_times : bad_times (event_input clip_negative).
Proof. left. exists (-1)%float. split; vm_compute; reflexivity. Qed.

(** C3, as stated, fails: with [start_time = -1] the job fails on the
    validation, but the duration probe has run before. *)
Lemma probe_runs_before_validation :
  (handler good_world clip_negative start_state).1 =
    inr (failure_response clip_negative "start_time must be >= 0") /\
  st_trace (handler good_world clip_negative start_state).2 =
    [Print (LogReceived (event_input clip_negative));
     CallMkdtemp;
     Print (LogWorkdir sample_dir);
     Print (LogDownloadFetch video_url);
     CallHttpGet video_url 300;
     Print (LogDownloadComplete 4);
     CallRun (ffprobe_cmd sample_input) None true;
     Print (LogInfoDuration 60);
     Print (LogJobFailed "start_time must be >= 0");
     CallRmtree sample_dir;
     Print LogCleaned].
Proof. split; vm_compute; reflexivity. Qed.

Lemma invalid_times_fail_witness :
  exists msg st',
    handler good_world clip_negative start_state =
      (inr (failure_response clip_negative msg), st') /\
    extends good_world probe_only (entered clip_negative start_state) st' /\
    forall t i D st1,
      prepare good_world clip_negative (entered clip_negative start_state)
        = (inr (t, i, D), st1) ->
      In (CallRun (ffprobe_cmd i) None true) (st_trace st') /\
      (forall s d,
         py_float (dict_get (event_input clip_negative) "start_time" (JInt 0)) = inr s ->
         py_float (dict_get (event_input clip_negative) "duration" (JInt 30)) = inr d ->
         msg = if (s <? 0)%float then "start_time must be >= 0"
               else "duration must be > 0") /\
      (forall e,
         conversion_error (event_input clip_negative) = Some e -> msg = exn_msg e).
Proof.
  exact (invalid_times_fail good_world clip_negative start_state
           clip_negative_not_thumbnail clip_negative_bad_times).
Defined.

(** A start time below zero with a duration that [float] rejects: the
    job fails on the conversion, which comes before the checks. *)
Example negative_start_null_duration :
  bad_times (event_input clip_negative_null) /\
  field (handler good_world clip_negative_null start_state) "error" =
    Some (JStr "float() argument must be a string or a real number, not 'NoneType'").
Proof.
  split; [| vm_compute; reflexivity].
  left. exists (-1)%float. split; vm_compute; reflexivity.
Qed.


(** After a run in which the removal works, the workspace is gone. *)
Example workspace_removed :
  st_temp_dir (handler good_world clip_50_30 start_state).2 = Some sample_dir /\
  st_fs (handler good_world clip_50_30 start_state).2 !! sample_dir = None /\
  st_fs (handler good_world clip_negative start_state).2 !! sample_dir = None.
Proof. repeat split; vm_compute; reflexivity. Qed.

Lemma clip_postconditions_witness :
  let cmd := ffmpeg_clip_cmd sample_input "/tmp/out.mp4" 50 10
               (default medium_preset (quality_presets !! "high")) in
  (extract_clip slow_world sample_input "/tmp/out.mp4" 50 10 (JStr "high")
     start_state).1 =
    inl (Exn PlainException "FFmpeg processing timed out after 10 minutes") /\
  In (CallRun cmd (Some 600%Z) false)
     (st_trace (extract_clip slow_world sample_input "/tmp/out.mp4" 50 10
                  (JStr "high") start_state).2).
Proof.
  pose proof (clip_postconditions slow_world sample_input "/tmp/out.mp4" 50 10
                "high" start_state 660000 0 "" "ffmpeg diagnostics" eq_refl)
    as (R & T & _).
  split; [exact R | exact T].
Defined.

(** The four ways a clip extraction ends badly, and the good one. *)
Example clip_extraction_outcomes :
  let run W := (extract_clip W sample_input "/tmp/out.mp4" 50 10 (JStr "high")
                  start_state).1 in
  run (world_of probe_60 4000 1 None RmOk) =
    inl (Exn PlainException
           "FFmpeg error: FFmpeg processing failed: ffmpeg diagnostics") /\
  run (world_of probe_60 4000 0 None RmOk) =
    inl (Exn PlainException "FFmpeg error: Output file was not created") /\
  run empty_output_world =
    inl (Exn PlainException "FFmpeg error: Output file is empty") /\
  run slow_world =
    inl (Exn PlainException "FFmpeg processing timed out after 10 minutes") /\
  run good_world = inr "/tmp/out.mp4".
Proof. repeat split; vm_compute; reflexivity. Qed.

Lemma probe_failure_witness :
  (exists D st',
     get_video_duration no_probe_world sample_input start_state = (inr D, st') /\
     (probe_fails no_probe_world sample_input ->
      D = 0%float /\
      exists msg,
        st_trace st' = st_trace start_state
                         ++ [CallRun (ffprobe_cmd sample_input) None true;
                             Print (LogWarnDuration msg)])) /\
  (exists msg st2,
     prepare no_probe_world clip_50_30 (entered clip_50_30 start_state) =
       (inr (sample_dir, sample_input, 0%float), st2) /\
     st_trace st2 =
       st_trace (download_file no_probe_world video_url sample_input
                   (in_workspace no_probe_world "k3x9w2ab"
                      (entered clip_50_30 start_state))).2
         ++ [CallRun (ffprobe_cmd sample_input) None true;
             Print (LogWarnDuration msg)] /\
     (exists rc st3 r st' evs,
        dispatch no_probe_world clip_50_30 sample_dir sample_input 0 st2 = (rc, st3) /\
        handler no_probe_world clip_50_30 start_state = (inr r, st') /\
        r = match rc with
            | inr d => d
            | inl e => failure_response clip_50_30 (exn_msg e)
            end /\
        st_trace st' = st_trace st3 ++ evs) /\
     (exists r st' rest,
        handler no_probe_world clip_50_30 start_state = (inr r, st') /\
        st_trace st' =
          st_trace st2 ++ Print (LogExtracting 50 30 (JStr "high")) :: rest /\
        (r !! "success" = Some (JBool true) ->
         r !! "duration" = Some (JFloat 30) /\
         r !! "video_duration" = Some (JFloat 0)))).
Proof.
  destruct (probe_failure_is_not_fatal no_probe_world) as [A B].
  split; [apply A |].
  destruct (B clip_50_30 start_state video_url "k3x9w2ab"
              (download_file no_probe_world video_url sample_input
                 (in_workspace no_probe_world "k3x9w2ab"
                    (entered clip_50_30 start_state))).2)
    as (msg & st2 & P & T & Dp & C);
    [vm_compute; reflexivity | discriminate | reflexivity
    | vm_compute; reflexivity | exact I |].
  exists msg, st2. split; [exact P |]. split; [exact T |]. split; [exact Dp |].
  apply (C clip_50_30_not_thumbnail 50%float 30%float); vm_compute; reflexivity.
Defined.

(** Without [ffprobe] the clip of the first scenario is not clamped. *)
Example unprobed_response :
  Sample.response (handler no_probe_world clip_50_30 start_state) =
  Some (map_to_list (list_to_map
    [("success", JBool true); ("operation", JStr "extract_clip");
     ("clip_data", JStr "ZnR5cA=="); ("file_size", JInt 4);
     ("format", JStr "mp4"); ("start_time", JFloat 50);
     ("duration", JFloat 30); ("quality", JStr "high");
     ("video_duration", JFloat 0)] : pydict)).
Proof. vm_compute. reflexivity. Qed.



(** A quality that is a number is looked up and not found. *)
Example numeric_quality_is_medium :
  lookup_preset (JInt 7) = inr medium_preset /\
  lookup_preset JNull = inr medium_preset /\
  lookup_preset (JBool true) = inr medium_preset.
Proof. repeat split. Qed.

(** C5: the code accepts an empty thumbnail.  The transcoder exits with
    code 0 and leaves an empty file: the thumbnail job succeeds with
    [file_size = 0], where the clip job fails on the same disk. *)
Theorem thumbnail_accepts_empty_output :
  (handler empty_output_world thumbnail_request start_state).1 =
    inr (list_to_map
           [("success", JBool true);
            ("operation", JStr "generate_thumbnail");
            ("thumbnail_data", JStr "");
            ("file_size", JInt 0);
            ("format", JStr "jpg");
            ("time", JFloat 15)]) /\
  (handler empty_output_world clip_50_30 start_state).1 =
    inr (failure_response clip_50_30 "FFmpeg error: Output file is empty").
Proof. split; vm_compute; reflexivity. Qed.

(** ** Runs for the further properties *)

(** A refused request, a file that cannot be opened, a full disk, a
    broken stream and a good download. *)
Example download_outcomes :
  (download_file offline_world video_url sample_input start_state).1 =
    inl (Exn PlainException
           "Download failed: 503 Server Error: Service Unavailable") /\
  (download_file read_only_world video_url sample_input start_state).1 =
    inl (Exn PlainException
           "Download failed: [Errno 30] Read-only file system: '/tmp/tmpk3x9w2ab/input.mp4'") /\
  st_fs (download_file read_only_world video_url sample_input start_state).2
    !! sample_input = None /\
  (download_file full_disk_world video_url sample_input start_state).1 =
    inl (Exn PlainException
           "Download failed: [Errno 28] No space left on device") /\
  (download_file broken_stream_world video_url sample_input start_state).1 =
    inl (Exn PlainException
           "Download failed: Connection broken: IncompleteRead") /\
  st_fs (download_file broken_stream_world video_url sample_input start_state).2
    !! sample_input = Some (File [Byte.x00; Byte.x01]) /\
  (download_file good_world video_url sample_input start_state).1 =
    inr sample_input /\
  st_fs (download_file good_world video_url sample_input start_state).2
    !! sample_input = Some (File [Byte.x00; Byte.x01; Byte.x02; Byte.x03]).
Proof. repeat split; vm_compute; reflexivity. Qed.

(** The download in the good world: four bytes in two chunks. *)
Lemma download_file_content_witness :
  st_fs (download_file good_world video_url sample_input start_state).2 =
    <[sample_input := File [Byte.x00; Byte.x01; Byte.x02; Byte.x03]]>
      (st_fs start_state) /\
  In (Print (LogDownloadComplete 4))
     (st_trace (download_file good_world video_url sample_input start_state).2).
Proof.
  destruct (download_file_content good_world video_url sample_input start_state)
    as (_ & _ & C).
  destruct (C (HttpResponse 4 [[Byte.x00; Byte.x01]; []; [Byte.x02; Byte.x03]] None)
              eq_refl eq_refl eq_refl) as [Fs Tr].
  split; [exact Fs | exact (Tr eq_refl)].
Defined.

Lemma mkdtemp_failure_witness :
  handler no_tmp_world clip_50_30 start_state =
    (inr (failure_response clip_50_30 "[Errno 28] No space left on device"),
     State (st_fs start_state)
           (st_trace start_state
              ++ [Print (LogReceived (event_input clip_50_30));
                  CallMkdtemp;
                  Print (LogJobFailed "[Errno 28] No space left on device")])
           None).
Proof.
  apply (mkdtemp_failure no_tmp_world clip_50_30 start_state); reflexivity.
Defined.

Lemma url_must_be_a_string_witness :
  exists st',
    handler good_world numeric_url start_state =
      (inr (failure_response numeric_url
              ("'" +:+ type_name (dict_get (event_input numeric_url) "video_url" JNull)
                   +:+ "' object has no attribute 'split'")),
       st') /\
    extends good_world local_only (entered numeric_url start_state) st' /\
    In (CallRmtree (workdir good_world "k3x9w2ab")) (st_trace st').
Proof.
  apply (url_must_be_a_string good_world numeric_url start_state "k3x9w2ab").
  - reflexivity.
  - intros s. vm_compute. discriminate.
  - reflexivity.
Defined.

(** The message of that failure. *)
Example numeric_url_response :
  field (handler good_world numeric_url start_state) "error" =
    Some (JStr "'int' object has no attribute 'split'").
Proof. vm_compute. reflexivity. Qed.

Lemma download_failure_witness :
  exists st',
    handler offline_world clip_50_30 start_state =
      (inr (failure_response clip_50_30
              ("Download failed: " +:+ "503 Server Error: Service Unavailable")),
       st') /\
    extends offline_world no_process (entered clip_50_30 start_state) st'.
Proof.
  apply (download_failure_fails_job offline_world clip_50_30 start_state
           video_url "k3x9w2ab" "503 Server Error: Service Unavailable").
  - vm_compute. reflexivity.
  - discriminate.
  - reflexivity.
  - reflexivity.
Defined.

Lemma thumbnail_request_is_thumbnail : is_thumbnail thumbnail_request.
Proof. vm_compute. reflexivity. Qed.

Lemma thumbnail_requests_witness :
  exists r st',
    handler good_world thumbnail_request start_state = (inr r, st') /\
    extends good_world thumbnail_pipeline (entered thumbnail_request start_state) st' /\
    match handler_try good_world thumbnail_request
            (entered thumbnail_request start_state) with
    | (inr d, _) =>
        r = d /\
        d !! "success" = Some (JBool true) /\
        d !! "operation" = Some (JStr "generate_thumbnail") /\
        d !! "format" = Some (JStr "jpg") /\
        is_Some (d !! "thumbnail_data") /\
        d !! "clip_data" = None
    | (inl e, _) => r = failure_response thumbnail_request (exn_msg e)
    end /\
    (forall t i D st1 time,
       prepare good_world thumbnail_request (entered thumbnail_request start_state)
         = (inr (t, i, D), st1) ->
       py_float (dict_get (event_input thumbnail_request) "time" (JInt 0)) = inr time ->
       let o := path_join t "thumbnail.jpg" in
       exists rest,
         st_trace st' =
           st_trace st1
             ++ Print (LogThumbnailAt time)
             :: CallRun (ffmpeg_thumbnail_cmd i o time) (Some 30%Z) false
             :: rest).
Proof.
  exact (thumbnail_requests good_world thumbnail_request start_state
           thumbnail_request_is_thumbnail).
Defined.

(** The thumbnail of second 15. *)
Example thumbnail_response :
  Sample.response (handler good_world thumbnail_request start_state) =
  Some (map_to_list (list_to_map
    [("success", JBool true); ("operation", JStr "generate_thumbnail");
     ("thumbnail_data", JStr "ZnR5cA=="); ("file_size", JInt 4);
     ("format", JStr "jpg"); ("time", JFloat 15)] : pydict)).
Proof. vm_compute. reflexivity. Qed.

Lemma thumbnail_time_witness :
  exists r st' rest,
    thumbnail_job good_world (event_input thumbnail_negative)
      sample_dir sample_input start_state = (r, st') /\
    st_trace st' =
      st_trace start_state
        ++ Print (LogThumbnailAt (-3))
        :: CallRun (ffmpeg_thumbnail_cmd sample_input
                      (path_join sample_dir "thumbnail.jpg") (-3))
                   (Some 30%Z) false
        :: rest.
Proof.
  apply (thumbnail_time_is_not_checked good_world
           (event_input thumbnail_negative) sample_dir sample_input
           start_state (-3)%float).
  vm_compute. reflexivity.
Defined.

Lemma thumbnail_outcomes_witness :
  (generate_thumbnail slow_thumbnail_world sample_input "/tmp/t.jpg" 15
     start_state).1 =
    inl (Exn PlainException
           ("Thumbnail error: Command '"
              +:+ cmd_repr (ffmpeg_thumbnail_cmd sample_input "/tmp/t.jpg" 15)
              +:+ "' timed out after " +:+ py_repr (JInt 30) +:+ " seconds")).
Proof.
  exact (thumbnail_outcomes slow_thumbnail_world sample_input "/tmp/t.jpg" 15
           start_state 45000 0 "" "ffmpeg diagnostics" eq_refl).
Defined.

Lemma clip_null_start_unconvertible :
  conversion_error (event_input clip_null_start) =
    Some (Exn TypeError
            "float() argument must be a string or a real number, not 'NoneType'").
Proof. vm_compute. reflexivity. Qed.

Lemma clip_null_start_not_thumbnail : not_thumbnail clip_null_start.
Proof. left. reflexivity. Qed.

Lemma unconvertible_times_witness :
  exists msg st',
    handler good_world clip_null_start start_state =
      (inr (failure_response clip_null_start msg), st') /\
    extends good_world probe_only (entered clip_null_start start_state) st' /\
    forall t i D st1,
      prepare good_world clip_null_start (entered clip_null_start start_state)
        = (inr (t, i, D), st1) ->
      msg = exn_msg (Exn TypeError
              "float() argument must be a string or a real number, not 'NoneType'").
Proof.
  exact (unconvertible_times_fail good_world clip_null_start start_state _
           clip_null_start_not_thumbnail clip_null_start_unconvertible).
Defined.

Lemma transcoder_missing_witness :
  let cmd := ffmpeg_clip_cmd sample_input "/tmp/out.mp4" 0 5
               (default medium_preset (quality_presets !! "low")) in
  extract_clip no_ffmpeg_world sample_input "/tmp/out.mp4" 0 5 (JStr "low")
    start_state =
    (inl (Exn PlainException
            ("FFmpeg error: " +:+ "[Errno 2] No such file or directory: 'ffmpeg'")),
     State (st_fs start_state)
           (st_trace start_state
              ++ [Print (LogExtracting 0 5 (JStr "low"));
                  Print (LogCommand (str_join " " cmd));
                  CallRun cmd (Some 600%Z) false])
           (st_temp_dir start_state)).
Proof.
  exact (transcoder_missing no_ffmpeg_world sample_input "/tmp/out.mp4" 0 5 "low"
           start_state "[Errno 2] No such file or directory: 'ffmpeg'" eq_refl).
Defined.

Lemma container_quality_witness :
  extract_clip good_world sample_input "/tmp/out.mp4" 0 5 (JList [JStr "high"])
    start_state =
    (inl (Exn TypeError
            ("unhashable type: '" +:+ type_name (JList [JStr "high"]) +:+ "'")),
     pushed (Print (LogExtracting 0 5 (JList [JStr "high"]))) start_state).
Proof.
  exact (container_quality_raises good_world sample_input "/tmp/out.mp4" 0 5
           (JList [JStr "high"]) start_state I).
Defined.

Lemma clip_response_witness :
  exists data,
    data <> [] /\
    clip_50_30_response !! "clip_data" = Some (JStr (b64encode data)) /\
    clip_50_30_response !! "file_size" = Some (JInt (Z.of_nat (length data))).
Proof.
  apply (clip_response_is_not_empty good_world clip_50_30 start_state
           clip_50_30_response (handler good_world clip_50_30 start_state).2
           clip_50_30_not_thumbnail);
    vm_compute; reflexivity.
Defined.

Lemma clip_10_20_not_thumbnail : not_thumbnail clip_10_20.
Proof. left. reflexivity. Qed.

Lemma clip_nan_not_thumbnail : not_thumbnail clip_nan.
Proof. left. reflexivity. Qed.

(** Twenty seconds from second 10 of a 60 second video are cut as
    asked. *)
Lemma fitting_clip_witness :
  exists r st' rest,
    handler good_world clip_10_20 start_state = (inr r, st') /\
    st_trace st' =
      st_trace (prepare good_world clip_10_20
                  (entered clip_10_20 start_state)).2
        ++ Print (LogExtracting 10 20 (JStr "medium")) :: rest /\
    (r !! "success" = Some (JBool true) ->
     r !! "duration" = Some (JFloat 20) /\
     r !! "start_time" = Some (JFloat 10) /\
     r !! "video_duration" = Some (JFloat 60)).
Proof.
  apply (fitting_clip_is_not_clamped good_world clip_10_20 start_state
           sample_dir sample_input 60%float _ 10%float 20%float
           clip_10_20_not_thumbnail);
    try (vm_compute; reflexivity).
  right. vm_compute. reflexivity.
Defined.

Lemma nan_times_witness :
  exists r st' rest,
    handler good_world clip_nan start_state = (inr r, st') /\
    st_trace st' =
      st_trace (prepare good_world clip_nan (entered clip_nan start_state)).2
        ++ Print (LogExtracting nan 20 (JStr "medium")) :: rest.
Proof.
  apply (nan_times_are_not_rejected good_world clip_nan start_state
           sample_dir sample_input 60%float _ nan 20%float
           clip_nan_not_thumbnail);
    try (vm_compute; reflexivity).
  left. split; vm_compute; reflexivity.
Defined.

(** The job with a NaN start time goes through. *)
Example nan_response :
  field (handler good_world clip_nan start_state) "success" = Some (JBool true) /\
  field (handler good_world clip_nan start_state) "start_time" = Some (JFloat nan) /\
  field (handler good_world clip_nan start_state) "duration" = Some (JFloat 20).
Proof. repeat split; vm_compute; reflexivity. Qed.

Lemma probe_success_witness :
  get_video_duration good_world sample_input start_state =
    (inr 60%float,
     State (w_proc_effect good_world (ffprobe_cmd sample_input) (st_fs start_state))
           (st_trace start_state
              ++ [CallRun (ffprobe_cmd sample_input) None true;
                  Print (LogInfoDuration 60)])
           (st_temp_dir start_state)).
Proof.
  apply (probe_success good_world sample_input start_state 120
           ("60.000000" +:+ newline) ""); vm_compute; reflexivity.
Defined.

Lemma input_file_name_witness :
  exists name url,
    w_mkdtemp good_world = inr name /\ sample_dir = workdir good_world name /\
    dict_get (event_input clip_50_30) "video_url" JNull = JStr url /\
    sample_input = path_join sample_dir ("input" +:+ input_ext url) /\
    (exists e, input_ext url = String "." e) /\
    contains "/" ("input" +:+ input_ext url) = false /\
    contains "?" ("input" +:+ input_ext url) = false.
Proof.
  apply (input_file_name good_world clip_50_30 (entered clip_50_30 start_state)
           sample_dir sample_input 60%float
           (prepare good_world clip_50_30 (entered clip_50_30 start_state)).2).
  vm_compute. reflexivity.
Defined.

(** The extension of the input file, for some URLs. *)
Example input_extensions :
  input_ext "https://cdn.example/v.mp4?sig=1" = ".mp4" /\
  input_ext "https://cdn.example/a/clip.final.MOV?x=a/b.avi" = ".MOV" /\
  input_ext "https://cdn.example/video" = ".mp4" /\
  input_ext "https://cdn.example/v1.2/video" = ".mp4" /\
  input_ext "https://cdn.example/.hidden" = ".mp4" /\
  input_ext "" = ".mp4".
Proof. repeat split. Qed.
